(** * Skill gap analyzer: the resume parser and the gap analysis

    A shallow embedding of [app/resume_parser.py], [app/gemini_service.py]
    and the tips loop of [app/main.py], followed by the properties of the
    gap classification, the proficiency estimator, the skill extractor
    and the advice loop.

    Conventions of the embedding:
    - a Python [str] is a [string]; [str.lower], [str.strip] and
      [str.replace] are library methods and are taken through the class
      [PyStr] (an ASCII instance is given for running the code);
    - a Python [dict] is an association list in insertion order whose keys
      are pairwise distinct ([dict_wf]); [dict_set] overwrites in place or
      appends, as assignment [d[k] = v] does;
    - a Python [set] of strings is a [gset string]: its iteration order is
      unspecified, [list(s)] is [elements s];
    - exceptions are values of [PyExn], named after the statement that
      raises them; code that can raise returns [PyExn + A];
    - the Gemini client is a collaborator acting on an abstract world; the
      calls made through it are recorded in a log next to the world. *)

From Stdlib Require Import ZArith String Ascii List Lia.
From stdpp Require Import base list strings gmap.

Open Scope string_scope.
Open Scope list_scope.
Open Scope Z_scope.

(** ** Python values *)

(** The exceptions the program meets, one constructor for each place that
    raises. *)
Inductive PyExn : Type :=
| LibraryError (msg : string)
    (* raised inside a library: PyPDF2, python-docx, open/read, the Gemini
       client, json.loads *)
| UnsupportedFormat (suffix : string)
    (* ValueError(f"Unsupported file format: {suffix}"), extract_text *)
| ExtractionError (file_path : string) (cause : string).
    (* ValueError(f"Error extracting text from {file_path}: {str(e)}"),
       parse_resume *)

(** [str(e)] *)
Definition str (e : PyExn) : string :=
  match e with
  | LibraryError msg => msg
  | UnsupportedFormat suffix => "Unsupported file format: " +:+ suffix
  | ExtractionError file_path cause =>
      "Error extracting text from " +:+ file_path +:+ ": " +:+ cause
  end.

(** ["\n"] *)
Definition newline : string := String (ascii_of_nat 10) EmptyString.

(** The string methods of the Python runtime used by the program. *)
Class PyStr : Type := {
  lower : string → string;                      (* s.lower() *)
  strip : string → string;                      (* s.strip() *)
  replace : string → string → string → string   (* s.replace(old, new) *)
}.

(** [p in t] on strings: [p] occurs in [t] as a contiguous run. *)
Fixpoint str_startswith (p t : string) : bool :=
  match p, t with
  | EmptyString, _ => true
  | String a p', String b t' => bool_decide (a = b) && str_startswith p' t'
  | String _ _, EmptyString => false
  end.

Fixpoint str_in (p t : string) : bool :=
  str_startswith p t ||
  match t with
  | EmptyString => false
  | String _ t' => str_in p t'
  end.

(** *** Dictionaries *)

Section dict.
Context {V : Type}.

Definition dict_keys (d : list (string * V)) : list string := d.*1.

Fixpoint dict_get (d : list (string * V)) (k : string) : option V :=
  match d with
  | [] => None
  | (k', v) :: d' => if decide (k = k') then Some v else dict_get d' k
  end.

(** [k in d] *)
Definition dict_in (k : string) (d : list (string * V)) : bool :=
  bool_decide (k ∈ dict_keys d).

(** [d.get(k, dflt)] *)
Definition dict_get_default (d : list (string * V)) (k : string) (dflt : V) : V :=
  default dflt (dict_get d k).

(** [d[k] = v] *)
Fixpoint dict_set (d : list (string * V)) (k : string) (v : V) : list (string * V) :=
  match d with
  | [] => [(k, v)]
  | (k', v') :: d' =>
      if decide (k = k') then (k', v) :: d' else (k', v') :: dict_set d' k v
  end.

(** Keys of a dictionary are pairwise distinct. *)
Definition dict_wf (d : list (string * V)) : Prop := NoDup (dict_keys d).

Definition keyset (d : list (string * V)) : gset string :=
  list_to_set (dict_keys d).
End dict.

Abbreviation dict V := (list (string * V)) (only parsing).

(** *** The values of [json.loads] *)

(** A number is kept as its text. The values are only taken apart by
    cases, so no induction principle is generated. *)
Unset Elimination Schemes.
Inductive PyValue : Type :=
| PyNone
| PyBool (b : bool)
| PyNumber (repr : string)
| PyString (s : string)
| PyList (items : list PyValue)
| PyDict (items : list (string * PyValue)).
Set Elimination Schemes.

(** Code that may raise, without state. *)
#[global] Instance exn_ret : MRet (sum PyExn) := λ A a, inr a.

#[global] Instance exn_bind : MBind (sum PyExn) := λ A B k m,
  match m with
  | inl e => inl e
  | inr a => k a
  end.

(** The operations the pages apply to a decoded value. Where Python
    raises [AttributeError], [TypeError] or [KeyError], the operation
    yields the error with its message. *)

(** [value.get(key, default)]: only a dict has the method. *)
Definition py_get (value : PyValue) (key : string) (default : PyValue) : PyExn + PyValue :=
  match value with
  | PyDict items => inr (dict_get_default items key default)
  | _ => inl (LibraryError "object has no attribute 'get'")
  end.

(** [for x in value]: the elements of a list, the characters of a string,
    the keys of a dict; nothing else is iterable. *)
Definition py_iter (value : PyValue) : PyExn + list PyValue :=
  match value with
  | PyList items => inr items
  | PyString s => inr ((λ c, PyString (String c EmptyString)) <$> list_ascii_of_string s)
  | PyDict items => inr (PyString <$> dict_keys items)
  | _ => inl (LibraryError "object is not iterable")
  end.

(** [key in value], for a string [key]: a key of a dict, an element of a
    list, a substring of a string. *)
Definition py_contains (key : string) (value : PyValue) : PyExn + bool :=
  match value with
  | PyDict items => inr (dict_in key items)
  | PyList items =>
      inr (existsb (λ item, match item with
                            | PyString s => bool_decide (s = key)
                            | _ => false
                            end) items)
  | PyString s => inr (str_in key s)
  | _ => inl (LibraryError "argument is not iterable")
  end.

(** [value[key]], for a string [key]: only a dict is indexed by a string,
    and only at a key it has. *)
Definition py_getitem (value : PyValue) (key : string) : PyExn + PyValue :=
  match value with
  | PyDict items =>
      match dict_get items key with
      | Some v => inr v
      | None => inl (LibraryError key)
      end
  | _ => inl (LibraryError "indices must be integers")
  end.

(** ** app/resume_parser.py *)

Module ResumeParser.

(** A spaCy token, as far as the parser reads it: its text, the position
    of its syntactic head in the document (the root is its own head) and
    its dependency label. *)
Record Token : Type := { text : string; head : nat; dep_ : string }.

Abbreviation Doc := (list Token) (only parsing).

(** [token.children]: the tokens whose head is the token at position [h],
    in document order. *)
Definition children (doc : Doc) (h : nat) : list Token :=
  omap (λ '(i, t), if bool_decide (head t = h ∧ i ≠ h) then Some t else None)
       (imap pair doc).

(** The libraries behind the text extraction: [Path(p).suffix], the page
    texts of [PyPDF2.PdfReader], the paragraphs of [docx.Document] and
    [open(p).read()]. Each may raise; the message of the exception is
    returned on the left. *)
Class Files : Type := {
  path_suffix : string → string;
  pdf_pages : string → string + list (string + string);
  docx_paragraphs : string → string + list string;
  read_text : string → string + string
}.

(** The parser object: the loaded spaCy pipeline and the ontology, a JSON
    object [{"skills": {category: {skill: metadata}}}]. *)
Record Parser (Meta : Type) : Type := {
  nlp : string → Doc;
  skill_ontology : dict (dict (dict Meta))
}.
Arguments nlp {Meta} _ _.
Arguments skill_ontology {Meta} _.

Section parser.
Context `{PyStr} `{Files} {Meta : Type}.
Implicit Types (self : Parser Meta) (file_path skill : string).

(** Lifting of a library call into [PyExn + A]. *)
Definition library {A} (r : string + A) : PyExn + A :=
  match r with inl msg => inl (LibraryError msg) | inr a => inr a end.

Fixpoint pdf_concat (pages : list (string + string)) (text : string) : PyExn + string :=
  match pages with
  | [] => inr text
  | inl msg :: _ => inl (LibraryError msg)
  | inr page :: pages' => pdf_concat pages' (text +:+ page +:+ newline)
  end.

Definition extract_text_from_pdf file_path : PyExn + string :=
  match pdf_pages file_path with
  | inl msg => inl (LibraryError msg)
  | inr pages => pdf_concat pages ""
  end.

Fixpoint str_join (sep : string) (l : list string) : string :=
  match l with
  | [] => ""
  | [s] => s
  | s :: l' => s +:+ sep +:+ str_join sep l'
  end.

Definition extract_text_from_docx file_path : PyExn + string :=
  match docx_paragraphs file_path with
  | inl msg => inl (LibraryError msg)
  | inr paragraphs => inr (str_join newline paragraphs)
  end.

Definition extract_text_from_txt file_path : PyExn + string :=
  library (read_text file_path).

Definition extract_text file_path : PyExn + string :=
  let suffix := lower (path_suffix file_path) in
  if decide (suffix = ".pdf") then extract_text_from_pdf file_path
  else if decide (suffix = ".docx") then extract_text_from_docx file_path
  else if decide (suffix = ".txt") then extract_text_from_txt file_path
  else inl (UnsupportedFormat suffix).

(** [self.skill_ontology.get('skills', {})] *)
Definition ontology_skills self : dict (dict Meta) :=
  dict_get_default (skill_ontology self) "skills" [].

(** Lines 77-81: the scan of the ontology keys. *)
Definition ontology_scan self (text : string) (skills : gset string) : gset string :=
  foldl (λ skills '(category, skills_data),
           foldl (λ skills skill,
                    if str_in (lower skill) (lower text)
                    then {[skill]} ∪ skills else skills)
                 skills (dict_keys skills_data))
        skills (ontology_skills self).

Definition triggers : list string :=
  ["experience"; "proficient"; "skilled"; "familiar"].

(** Lines 84-90: the scan of the parsed document. A head position outside
    the document does not occur in a spaCy document; such a token is
    skipped. *)
Definition pattern_scan (doc : Doc) (skills : gset string) : gset string :=
  foldl (λ skills token,
           match doc !! head token with
           | Some head_token =>
               if bool_decide (lower (text token) ∈ triggers)
                  && negb (bool_decide (lower (text head_token) = "with"))
               then foldl (λ skills child,
                             if bool_decide (dep_ child ∈ ["dobj"; "attr"; "conj"])
                             then {[text child]} ∪ skills else skills)
                          skills (children doc (head token))
               else skills
           | None => skills
           end)
        skills doc.

Definition _extract_skills_with_nlp self (text : string) : list string :=
  let doc := nlp self (lower text) in
  let skills : gset string := ∅ in
  let skills := ontology_scan self text skills in
  let skills := pattern_scan doc skills in
  elements skills.

(** The phrase lists of the four tiers, with the lowercased skill
    substituted. *)
Definition phrases5 (skill_lower : string) : list string :=
  [ "expert in " +:+ skill_lower;
    "advanced " +:+ skill_lower;
    "senior " +:+ skill_lower;
    "5+ years of " +:+ skill_lower ].

Definition phrases4 (skill_lower : string) : list string :=
  [ "proficient in " +:+ skill_lower;
    "strong " +:+ skill_lower +:+ " skills";
    "3-5 years of " +:+ skill_lower ].

Definition phrases3 (skill_lower : string) : list string :=
  [ "experience with " +:+ skill_lower;
    "working knowledge of " +:+ skill_lower;
    "1-3 years of " +:+ skill_lower ].

Definition phrases2 (skill_lower : string) : list string :=
  [ "familiar with " +:+ skill_lower;
    "basic " +:+ skill_lower +:+ " knowledge";
    "beginner level " +:+ skill_lower ].

(** [any(phrase in text_lower for phrase in phrases)] *)
Definition any_in (phrases : list string) (text_lower : string) : bool :=
  existsb (λ phrase, str_in phrase text_lower) phrases.

Definition _estimate_proficiency skill (text : string) : Z :=
  let text_lower := lower text in
  let skill_lower := lower skill in
  if any_in (phrases5 skill_lower) text_lower then 5
  else if any_in (phrases4 skill_lower) text_lower then 4
  else if any_in (phrases3 skill_lower) text_lower then 3
  else if any_in (phrases2 skill_lower) text_lower then 2
  else 1.

(** Lines 154-158: the search through the categories, stopped at the
    first hit. *)
Definition skill_found self skill : bool :=
  existsb (λ '(category, skills_data), dict_in skill skills_data)
          (ontology_skills self).

(** Lines 151-161. *)
Definition skill_levels_of self (text : string) (skills : list string) : dict Z :=
  foldl (λ skill_levels skill,
           if skill_found self skill
           then dict_set skill_levels skill (_estimate_proficiency skill text)
           else skill_levels)
        [] skills.

Definition parse_resume self file_path : PyExn + dict Z :=
  match extract_text file_path with
  | inl e => inl (ExtractionError file_path (str e))
  | inr text =>
      let skills := _extract_skills_with_nlp self text in
      inr (skill_levels_of self text skills)
  end.
(** Lines 28-34. [ontology_file] is what [data/skill_ontology.json] gives
    when the file exists: the decoded object, or the message of the
    exception raised while reading it; without the file the ontology is
    [{"skills": {}}]. *)
Definition _load_skill_ontology
    (ontology_file : option (string + dict (dict (dict Meta))))
  : PyExn + dict (dict (dict Meta)) :=
  match ontology_file with
  | Some content => library content
  | None => inr [("skills", [])]
  end.

(** What [spacy.load("en_core_web_sm")] does: it returns the pipeline,
    raises [OSError] when the model is not installed, or raises something
    else. *)
Inductive LoadOutcome : Type :=
| Loaded (pipeline : string → Doc)
| ModelNotFound (msg : string)
| LoadFailed (msg : string).

(** The machine the parser is built on: the first load, the download
    [subprocess.check_call([sys.executable, "-m", "spacy", "download",
    "en_core_web_sm"])], which may raise, and the load after it. *)
Record Spacy : Type := {
  spacy_load : LoadOutcome;
  spacy_download : string + unit;
  spacy_load_again : LoadOutcome
}.

(** Lines 16-23. *)
Definition load_pipeline (spacy : Spacy) : PyExn + (string → Doc) :=
  match spacy_load spacy with
  | Loaded pipeline => inr pipeline
  | ModelNotFound _ =>
      match spacy_download spacy with
      | inl msg => inl (LibraryError msg)
      | inr _ =>
          match spacy_load_again spacy with
          | Loaded pipeline => inr pipeline
          | ModelNotFound msg => inl (LibraryError msg)
          | LoadFailed msg => inl (LibraryError msg)
          end
      end
  | LoadFailed msg => inl (LibraryError msg)
  end.

(** Lines 14-26. *)
Definition __init__ (spacy : Spacy)
    (ontology_file : option (string + dict (dict (dict Meta))))
  : PyExn + Parser Meta :=
  match load_pipeline spacy with
  | inl e => inl e
  | inr pipeline =>
      match _load_skill_ontology ontology_file with
      | inl e => inl e
      | inr ontology => inr {| nlp := pipeline; skill_ontology := ontology |}
      end
  end.
End parser.

End ResumeParser.

(** ** app/gemini_service.py *)

Module GeminiService.

(** The f-string prompts of [generate_learning_path] and
    [get_skill_improvement_tips]: the fixed English text is left out, the
    interpolated values are kept. *)
Inductive Prompt : Type :=
| LearningPathPrompt (skill : string) (current_level target_level : Z)
| TipsPrompt (skill : string) (current_level : Z).

(** The Gemini client and the JSON decoder. [generate_content] stands for
    [model.generate_content(prompt)] followed by [response.text]: it acts
    on the world and yields the text or the message of the exception it
    raised; [json_loads] decodes or yields the message of its exception. *)
Class Gemini : Type := {
  World : Type;
  Json : Type;
  generate_content : Prompt → World → (string + string) * World;
  json_loads : string → string + Json
}.

(** The tagged dictionary [{'success': True, 'data': d}] or
    [{'success': False, 'error': msg}]. *)
Inductive Result (D : Type) : Type :=
| Success (data : D)
| Failure (error : string).
Arguments Success {D} data.
Arguments Failure {D} error.

(** [{'required_level': r, 'current_level': c}] *)
Record GapEntry : Type := { required_level : Z; current_level : Z }.

Record GapAnalysis : Type := {
  missing_skills : dict GapEntry;
  matching_skills : dict GapEntry;
  below_level_skills : dict GapEntry
}.

Section service.
Context `{PyStr} `{Gemini}.

Record Analysis : Type := {
  gap_analysis : GapAnalysis;
  learning_paths : dict Json
}.

(** An entry of the call log: which collaborator call was made, with
    which arguments, and what it returned. The log is the bookkeeping of
    the embedding, kept to state in which order the program calls its
    collaborator; the program neither reads nor writes it. *)
Inductive Call : Type :=
| LearningPathCall (skill : string) (current_level target_level : Z)
                   (result : Result Json)
| TipsCall (skill : string) (current_level : Z) (result : Result Json).

Record State : Type := { world : World; calls : list Call }.

(** Computations that act on the state and may raise. *)
Definition M (A : Type) : Type := State → (PyExn + A) * State.

#[export] Instance M_ret : MRet M := λ A a st, (inr a, st).

#[export] Instance M_bind : MBind M := λ A B k m st,
  match m st with
  | (inl e, st') => (inl e, st')
  | (inr a, st') => k a st'
  end.

Definition raise {A} (e : PyExn) : M A := λ st, (inl e, st).

(** [try: body  except Exception as e: handler(e)] *)
Definition try_except {A} (body : M A) (handler : PyExn → M A) : M A :=
  λ st, match body st with
        | (inl e, st') => handler e st'
        | (inr a, st') => (inr a, st')
        end.

Definition ask_model (prompt : Prompt) : M string :=
  λ st, let '(r, w) := generate_content prompt (world st) in
        (match r with inl msg => inl (LibraryError msg) | inr t => inr t end,
         {| world := w; calls := calls st |}).

Definition loads (response_text : string) : M Json :=
  match json_loads response_text with
  | inl msg => raise (LibraryError msg)
  | inr response_data => mret response_data
  end.

Definition record_call (c : Call) : M unit :=
  λ st, (inr tt, {| world := world st; calls := calls st ++ [c] |}).
End service.

Section service_functions.
Context `{PyStr} `{Gemini}.

(** Lines 65-81, and the same statements at lines 180-194: ask the model,
    clean the answer, decode it; any exception becomes a tagged failure. *)
Definition ask_json (prompt : Prompt) : M (Result Json) :=
  try_except
    (response_text ← ask_model prompt;
     let response_text := strip response_text in
     let response_text :=
       strip (replace (replace response_text "```json" "") "```" "") in
     response_data ← loads response_text;
     mret (Success response_data))
    (λ e, mret (Failure (str e))).

Definition generate_learning_path (skill : string) (current_level target_level : Z)
  : M (Result Json) :=
  let prompt := LearningPathPrompt skill current_level target_level in
  result ← ask_json prompt;
  record_call (LearningPathCall skill current_level target_level result);;
  mret result.

Definition get_skill_improvement_tips (skill : string) (current_level : Z)
  : M (Result Json) :=
  let prompt := TipsPrompt skill current_level in
  result ← ask_json prompt;
  record_call (TipsCall skill current_level result);;
  mret result.

(** Lines 100-117: the body of the classification loop. *)
Definition classify (resume_skills : dict Z) (gap_analysis : GapAnalysis)
           (item : string * Z) : GapAnalysis :=
  let '(skill, req_level) := item in
  match dict_get resume_skills skill with
  | None =>
      {| missing_skills :=
           dict_set (missing_skills gap_analysis) skill
                    {| required_level := req_level; current_level := 0 |};
         matching_skills := matching_skills gap_analysis;
         below_level_skills := below_level_skills gap_analysis |}
  | Some level =>
      if bool_decide (level >= req_level)
      then {| missing_skills := missing_skills gap_analysis;
              matching_skills :=
                dict_set (matching_skills gap_analysis) skill
                         {| required_level := req_level; current_level := level |};
              below_level_skills := below_level_skills gap_analysis |}
      else {| missing_skills := missing_skills gap_analysis;
              matching_skills := matching_skills gap_analysis;
              below_level_skills :=
                dict_set (below_level_skills gap_analysis) skill
                         {| required_level := req_level; current_level := level |} |}
  end.

Definition classify_all (resume_skills job_requirements : dict Z) : GapAnalysis :=
  foldl (classify resume_skills)
        {| missing_skills := []; matching_skills := []; below_level_skills := [] |}
        job_requirements.

(** Lines 123-130 and 133-140: the two loops differ only in the current
    level they pass, [0] for a missing skill and [data['current_level']]
    for a skill below its level. *)
Fixpoint learning_path_loop (current_of : GapEntry → Z) (items : dict GapEntry)
         (learning_paths : dict Json) : M (dict Json) :=
  match items with
  | [] => mret learning_paths
  | (skill, data) :: items' =>
      result ← generate_learning_path skill (current_of data) (required_level data);
      learning_path_loop current_of items'
        match result with
        | Success d => dict_set learning_paths skill d
        | Failure _ => learning_paths
        end
  end.

Definition paths_for_missing := learning_path_loop (λ _, 0).
Definition paths_for_below := learning_path_loop current_level.

Definition analyze_skill_gap (resume_skills job_requirements : dict Z) : M Analysis :=
  let gap_analysis := classify_all resume_skills job_requirements in
  let learning_paths := [] in
  learning_paths ← paths_for_missing (missing_skills gap_analysis) learning_paths;
  learning_paths ← paths_for_below (below_level_skills gap_analysis) learning_paths;
  mret {| gap_analysis := gap_analysis; learning_paths := learning_paths |}.
End service_functions.

End GeminiService.

(** ** app/main.py: the pages *)

Module Main.
Import GeminiService.

(** The Python value that a decoded answer is. The service only passes
    the answers on; the pages look inside them. *)
Class Decoded `{Gemini} : Type := { py_value : Json → PyValue }.

(** Lines 219-221: the loop over the resources. *)
Fixpoint show_resources (resources : list PyValue) : PyExn + unit :=
  match resources with
  | [] => inr tt
  | resource :: resources' =>
      _ ← py_get resource "type" (PyString "Resource");
      _ ← py_get resource "title" (PyString "Untitled");
      _ ← py_get resource "url" (PyString "#");
      show_resources resources'
  end.

(** Lines 198-229. The Streamlit calls only draw; what is kept is the
    order of the reads of [data], any of which may raise. *)
Definition display_learning_path (learning_path : Result PyValue) : PyExn + unit :=
  match learning_path with
  | Failure _ => inr tt
  | Success data =>
      _ ← py_get data "skill" (PyString "Unknown Skill");
      _ ← py_get data "target_level" (PyString "?");
      _ ← py_get data "current_level" (PyString "?");
      _ ← py_get data "current_level_desc" (PyString "Not specified");
      _ ← py_get data "target_level" (PyString "?");
      _ ← py_get data "target_level_desc" (PyString "Not specified");
      milestones ← py_get data "learning_path" (PyList []);
      _ ← py_iter milestones;
      resources ← py_get data "resources" (PyList []);
      resources ← py_iter resources;
      show_resources resources;;
      projects ← py_get data "projects" (PyList []);
      _ ← py_iter projects;
      _ ← py_get data "time_commitment" (PyString "Not specified");
      mret tt
  end.

Section main.
Context `{PyStr} `{Gemini}.
Context `{!Decoded}.

Definition lift {A} (r : PyExn + A) : M A := λ st, (r, st).

(** Lines 253-255 and 260-262: the stored learning path of each skill of
    a partition is displayed. *)
Fixpoint show_paths (learning_paths : dict Json) (items : dict GapEntry) : PyExn + unit :=
  match items with
  | [] => inr tt
  | (skill, data) :: items' =>
      match dict_get learning_paths skill with
      | Some d => display_learning_path (Success (py_value d))
      | None => inr tt
      end;;
      show_paths learning_paths items'
  end.

(** Lines 250-262: the missing skills, then the skills to improve. *)
Definition show_stored_paths (analysis : Analysis) : PyExn + unit :=
  show_paths (learning_paths analysis) (missing_skills (gap_analysis analysis));;
  show_paths (learning_paths analysis) (below_level_skills (gap_analysis analysis)).

(** Lines 274-279: the tips of a reply are listed, or the warning is
    shown. *)
Definition show_tips (tips : Result Json) : PyExn + unit :=
  match tips with
  | Failure _ => inr tt
  | Success data =>
      has_tips ← py_contains "tips" (py_value data);
      if (has_tips : bool)
      then tip_list ← py_getitem (py_value data) "tips";
           _ ← py_iter tip_list;
           mret tt
      else inr tt
  end.

(** Lines 267-279. [button key] tells whether the Streamlit button of
    that key was pressed in this run. *)
Fixpoint tips_for_matching (button : string → bool) (items : dict GapEntry) : M unit :=
  match items with
  | [] => mret tt
  | (skill, data) :: items' =>
      (if button ("tips_" +:+ skill)
       then tips ← get_skill_improvement_tips skill (current_level data);
            lift (show_tips tips)
       else mret tt);;
      tips_for_matching button items'
  end.

(** Lines 231-279. [analysis_results] is the session's last analysis, if
    any. *)
Definition show_upskilling_paths (analysis_results : option Analysis)
           (button : string → bool) : M unit :=
  match analysis_results with
  | None => mret tt
  | Some analysis =>
      match learning_paths analysis with
      | [] => mret tt
      | _ :: _ =>
          lift (show_stored_paths analysis);;
          tips_for_matching button (matching_skills (gap_analysis analysis))
      end
  end.

(** The rows of the three tables of the analysis page. *)
Record MatchedRow : Type :=
  { matched_Skill : string; matched_Your_Level : Z; matched_Required_Level : Z }.

Record BelowRow : Type :=
  { Skill : string; Your_Level : Z; Required_Level : Z; Gap : Z }.

Record MissingRow : Type :=
  { missing_Skill : string; missing_Required_Level : Z }.

(** What [display_analysis_results] puts on the page: the three metrics,
    each label [f"{n}/{total_required}"] kept as its two numbers, and the
    three tabs, a table or, for an empty partition, the [st.info] line
    ([None]). *)
Record Results : Type := {
  skills_matched : nat * nat;
  skills_below_level : nat * nat;
  skills_missing : nat * nat;
  tab_matching : option (list MatchedRow);
  tab_needs_improvement : option (list BelowRow);
  tab_missing : option (list MissingRow)
}.

(** Lines 136-196. The entries always hold both levels, so the defaults
    of [data.get] are never taken. *)
Definition display_analysis_results (analysis : Analysis) : Results :=
  let gap_analysis := gap_analysis analysis in
  let matching_skills := matching_skills gap_analysis in
  let below_level_skills := below_level_skills gap_analysis in
  let missing_skills := missing_skills gap_analysis in
  let total_required :=
    (length matching_skills + length below_level_skills + length missing_skills)%nat in
  let matched := length matching_skills in
  let below_level := length below_level_skills in
  let missing := length missing_skills in
  {| skills_matched := (matched, total_required);
     skills_below_level := (below_level, total_required);
     skills_missing := (missing, total_required);
     tab_matching :=
       match matching_skills with
       | [] => None
       | _ :: _ =>
           Some ((λ '(skill, data),
                    {| matched_Skill := skill;
                       matched_Your_Level := current_level data;
                       matched_Required_Level := required_level data |})
                   <$> matching_skills)
       end;
     tab_needs_improvement :=
       match below_level_skills with
       | [] => None
       | _ :: _ =>
           Some ((λ '(skill, data),
                    {| Skill := skill;
                       Your_Level := current_level data;
                       Required_Level := required_level data;
                       Gap := required_level data - current_level data |})
                   <$> below_level_skills)
       end;
     tab_missing :=
       match missing_skills with
       | [] => None
       | _ :: _ =>
           Some ((λ '(skill, data),
                    {| missing_Skill := skill;
                       missing_Required_Level := required_level data |})
                   <$> missing_skills)
       end |}.
End main.

End Main.

(** ** A runnable environment

    An ASCII instance of the string methods, a scripted model and a small
    parser, used to run the code on examples. *)

Module Demo.
Import ResumeParser GeminiService.

Definition ascii_lower (c : ascii) : ascii :=
  let n := nat_of_ascii c in
  if ((65 <=? n) && (n <=? 90))%nat then ascii_of_nat (n + 32) else c.

Fixpoint str_lower (s : string) : string :=
  match s with
  | EmptyString => EmptyString
  | String c s' => String (ascii_lower c) (str_lower s')
  end.

Definition is_space (c : ascii) : bool :=
  let n := nat_of_ascii c in
  (((9 <=? n) && (n <=? 13)) || ((28 <=? n) && (n <=? 32)))%nat.

Fixpoint str_lstrip (s : string) : string :=
  match s with
  | EmptyString => EmptyString
  | String c s' => if is_space c then str_lstrip s' else s
  end.

Fixpoint str_rstrip (s : string) : string :=
  match s with
  | EmptyString => EmptyString
  | String c s' =>
      match str_rstrip s' with
      | EmptyString => if is_space c then EmptyString else String c EmptyString
      | r => String c r
      end
  end.

Fixpoint str_replace_go (old new : string) (skip : nat) (s : string) : string :=
  match s with
  | EmptyString => EmptyString
  | String c s' =>
      match skip with
      | S skip' => str_replace_go old new skip' s'
      | O =>
          if str_startswith old s
          then new +:+ str_replace_go old new (String.length old - 1) s'
          else String c (str_replace_go old new O s')
      end
  end.

Fixpoint str_intersperse (new s : string) : string :=
  match s with
  | EmptyString => new
  | String c s' => new +:+ String c (str_intersperse new s')
  end.

Definition str_replace (s old new : string) : string :=
  match old with
  | EmptyString => str_intersperse new s
  | _ => str_replace_go old new O s
  end.

#[export] Instance ascii_str : PyStr :=
  {| lower := str_lower;
     strip := λ s, str_rstrip (str_lstrip s);
     replace := str_replace |}.

(** A model that answers from a script, one entry per call, and fails
    when the script is exhausted; a decoder that accepts texts opening
    with a brace. *)
#[export] Instance scripted : Gemini :=
  {| World := list (string + string);
     Json := string;
     generate_content := λ _ w,
       match w with
       | [] => (inl "503 service unavailable", [])
       | r :: w' => (r, w')
       end;
     json_loads := λ s,
       if str_startswith "{" s then inr s else inl "Expecting value" |}.

Definition start (script : list (string + string)) : State :=
  {| world := script; calls := [] |}.

(** Files: [resume.txt] and [notes.TXT] hold a sentence each, [empty.txt]
    is empty, every other path cannot be opened; the suffix is the part
    from the last dot. *)
Fixpoint suffix_from_last_dot (name : string) : string :=
  match name with
  | EmptyString => EmptyString
  | String c name' =>
      match suffix_from_last_dot name' with
      | EmptyString => if bool_decide (c = "."%char) then name else EmptyString
      | suffix => suffix
      end
  end.

Definition resume_text : string :=
  "Senior Python engineer with advanced machine learning skills".

#[export] Instance files : Files :=
  {| path_suffix := suffix_from_last_dot;
     pdf_pages := λ _, inl "No such file or directory";
     docx_paragraphs := λ _, inl "Package not found";
     read_text := λ p,
       if bool_decide (p = "resume.txt") then inr resume_text
       else if bool_decide (p = "empty.txt") then inr ""
       else if bool_decide (p = "notes.TXT") then inr "experience python and sql"
       else inl "No such file or directory" |}.

(** The parse of "experience python and sql". *)
Definition notes_doc : list Token :=
  [ {| text := "experience"; head := 0; dep_ := "ROOT" |};
    {| text := "python"; head := 0; dep_ := "dobj" |};
    {| text := "and"; head := 1; dep_ := "cc" |};
    {| text := "sql"; head := 1; dep_ := "conj" |} ].

Definition demo_nlp (text : string) : list Token :=
  if bool_decide (text = "experience python and sql") then notes_doc else [].

Definition demo_ontology : dict (dict (dict unit)) :=
  [ ("skills",
     [ ("technical", [ ("Python", tt); ("Machine Learning", tt); ("SQL", tt) ]);
       ("soft", [ ("Team Leadership", tt) ]) ]) ].

Definition demo_parser : Parser unit :=
  {| nlp := demo_nlp; skill_ontology := demo_ontology |}.

(** An ontology with an empty skill name. *)
Definition odd_parser : Parser unit :=
  {| nlp := demo_nlp;
     skill_ontology := [ ("skills", [ ("misc", [ ("", tt) ]) ]) ] |}.

(** A second set of files, for the readers: a PDF of two pages, a PDF
    whose second page cannot be extracted, and a text file. *)
Definition more_files : Files :=
  {| path_suffix := suffix_from_last_dot;
     pdf_pages := λ p,
       if bool_decide (p = "cv.pdf") then inr [inr "Expert in"; inr "Python"]
       else if bool_decide (p = "scan.pdf")
            then inr [inr "Python"; inl "cannot decode page"; inr "SQL"]
       else inl "No such file or directory";
     docx_paragraphs := λ _, inl "Package not found";
     read_text := λ p,
       if bool_decide (p = "dba.txt") then inr "Expert in MySQL administration"
       else inl "No such file or directory" |}.

(** An ontology in which one skill name occurs inside another. *)
Definition overlap_parser : Parser unit :=
  {| nlp := demo_nlp;
     skill_ontology := [ ("skills", [ ("data", [ ("SQL", tt); ("MySQL", tt) ]) ]) ] |}.

(** An observed and a required skill map, and the observed map after
    training. *)
Definition observed : dict Z :=
  [("Python", 3); ("Machine Learning", 2); ("SQL", 4)].

Definition trained : dict Z :=
  [("Python", 4); ("Machine Learning", 2); ("SQL", 5); ("Data Analysis", 1)].

Definition required : dict Z :=
  [("Python", 4); ("Machine Learning", 3); ("Data Analysis", 3); ("SQL", 2)].

(** The scripted answers are read as objects without fields. *)
#[export] Instance scripted_values : Main.Decoded :=
  {| Main.py_value := λ _, PyDict [] |}.

(** A model whose answers are decoded to Python values: the decoder knows
    a number, the empty list and the empty object. *)
Definition typed : Gemini :=
  {| World := list (string + string);
     Json := PyValue;
     generate_content := λ _ w,
       match w with
       | [] => (inl "503 service unavailable", [])
       | r :: w' => (r, w')
       end;
     json_loads := λ s,
       if bool_decide (s = "42") then inr (PyNumber "42")
       else if bool_decide (s = "[]") then inr (PyList [])
       else if bool_decide (s = "{}") then inr (PyDict [])
       else inl "Expecting value" |}.

Definition typed_values : @Main.Decoded typed :=
  {| Main.py_value := λ v : @Json typed, v |}.

(** A machine on which the spaCy model is installed, one on which it is
    missing and the download fails, and one on which the download installs
    it. *)
Definition spacy_installed : Spacy :=
  {| spacy_load := Loaded demo_nlp;
     spacy_download := inr tt;
     spacy_load_again := Loaded demo_nlp |}.

Definition spacy_offline : Spacy :=
  {| spacy_load := ModelNotFound "Can't find model 'en_core_web_sm'";
     spacy_download := inl "Command returned non-zero exit status 1";
     spacy_load_again := ModelNotFound "Can't find model 'en_core_web_sm'" |}.

Definition spacy_downloaded : Spacy :=
  {| spacy_load := ModelNotFound "Can't find model 'en_core_web_sm'";
     spacy_download := inr tt;
     spacy_load_again := Loaded demo_nlp |}.

End Demo.

Import ResumeParser GeminiService Main.

(** * Vocabulary of the statements *)

(** [p] occurs in [t]: [t] is some text, then [p], then some text. *)
Definition occurs_in (p t : string) : Prop :=
  ∃ before after : string, t = before +:+ p +:+ after.

(** The levels of a skill map lie between 1 and 5. *)
Definition levels_in_range (m : dict Z) : Prop :=
  ∀ s v, dict_get m s = Some v → 1 ≤ v ≤ 5.

Definition entry (req_level level : Z) : GapEntry :=
  {| required_level := req_level; current_level := level |}.

(** What the advice loops leave behind, given the results of their calls:
    the learning paths and the entries of the call log. *)
Section advice_vocabulary.
Context `{Gemini}.

Fixpoint apply_results (learning_paths : dict Json) (items : dict GapEntry)
         (results : list (Result Json)) : dict Json :=
  match items, results with
  | (skill, _) :: items', result :: results' =>
      apply_results
        match result with
        | Success d => dict_set learning_paths skill d
        | Failure _ => learning_paths
        end items' results'
  | _, _ => learning_paths
  end.

Definition logged (current_of : GapEntry → Z) (items : dict GapEntry)
           (results : list (Result Json)) : list Call :=
  zip_with (λ '(skill, data) result,
              LearningPathCall skill (current_of data) (required_level data) result)
           items results.

(** The skill a logged call is about. *)
Definition call_skill (c : Call) : string :=
  match c with
  | LearningPathCall skill _ _ _ => skill
  | TipsCall skill _ _ => skill
  end.

(** The arguments of the learning-path calls of a log, in order. *)
Definition learning_path_requests (log : list Call) : list (string * Z * Z) :=
  omap (λ c, match c with
             | LearningPathCall skill current target _ => Some (skill, current, target)
             | TipsCall _ _ _ => None
             end) log.

(** The arguments of the tips calls of a log, in order. *)
Definition tips_requests (log : list Call) : list (string * Z) :=
  omap (λ c, match c with
             | TipsCall skill current _ => Some (skill, current)
             | LearningPathCall _ _ _ _ => None
             end) log.
End advice_vocabulary.

(** The phrase templates of the estimator, as the specification lists
    them: the text before and the text after the skill name. *)
Definition tier_templates (level : Z) : list (string * string) :=
  if decide (level = 5) then
    [("expert in ", ""); ("advanced ", ""); ("senior ", ""); ("5+ years of ", "")]
  else if decide (level = 4) then
    [("proficient in ", ""); ("strong ", " skills"); ("3-5 years of ", "")]
  else if decide (level = 3) then
    [("experience with ", ""); ("working knowledge of ", ""); ("1-3 years of ", "")]
  else if decide (level = 2) then
    [("familiar with ", ""); ("basic ", " knowledge"); ("beginner level ", "")]
  else [].

(** Some phrase of the tier [level], with the lowercased skill name
    substituted, occurs in the lowercased text. *)
Definition tier_hit `{PyStr} (level : Z) (skill text : string) : Prop :=
  ∃ before after, (before, after) ∈ tier_templates level ∧
    occurs_in (before +:+ lower skill +:+ after) (lower text).

(** [k] is a skill key of some category of the ontology. *)
Definition ontology_key {Meta} (self : Parser Meta) (k : string) : Prop :=
  ∃ category skills_data,
    (category, skills_data) ∈ ontology_skills self ∧ k ∈ dict_keys skills_data.

(** How many logged calls are about the skill [s]. *)
Definition call_count `{Gemini} (s : string) (log : list Call) : nat :=
  length (filter (λ c, call_skill c = s) log).

(** [k] is proposed by the pattern scan of [doc]: it is the text of a
    child, with one of the three dependency labels, of the head of a
    trigger token whose head is not the word [with]. *)
Definition pattern_candidate `{PyStr} (doc : list Token) (k : string) : Prop :=
  ∃ token head_token child,
    token ∈ doc ∧ doc !! head token = Some head_token ∧
    lower (text token) ∈ triggers ∧ lower (text head_token) ≠ "with" ∧
    child ∈ children doc (head token) ∧
    dep_ child ∈ ["dobj"; "attr"; "conj"] ∧ text child = k.

(** The text read from the pages of a PDF: each page, then a newline. *)
Fixpoint pdf_text (pages : list string) : string :=
  match pages with
  | [] => ""
  | page :: pages' => page +:+ newline +:+ pdf_text pages'
  end.

(** The entry a requirement gives to each partition, if any. *)
Definition missing_item (O : dict Z) (item : string * Z) : option (string * GapEntry) :=
  match dict_get O item.1 with
  | None => Some (item.1, entry item.2 0)
  | Some _ => None
  end.

Definition matching_item (O : dict Z) (item : string * Z) : option (string * GapEntry) :=
  match dict_get O item.1 with
  | Some level =>
      if bool_decide (level >= item.2) then Some (item.1, entry item.2 level) else None
  | None => None
  end.

Definition below_item (O : dict Z) (item : string * Z) : option (string * GapEntry) :=
  match dict_get O item.1 with
  | Some level =>
      if bool_decide (level >= item.2) then None else Some (item.1, entry item.2 level)
  | None => None
  end.

(** The tips calls the upskilling page is asked for: the matching skills
    whose button is pressed, in order, each with its current level. *)
Definition pressed_requests (button : string → bool) (items : dict GapEntry)
  : list (string * Z) :=
  (λ item, (item.1, current_level item.2))
    <$> filter (λ item, button ("tips_" +:+ item.1) = true) items.

(** The failures that a returned analysis shows: the skills of the two
    partitions that need advice and have no learning path. *)
Definition failed_skills `{Gemini} (a : Analysis) : list string :=
  filter (λ s, s ∉ dict_keys (learning_paths a))
         (dict_keys (missing_skills (gap_analysis a))
          ++ dict_keys (below_level_skills (gap_analysis a))).

(** * Properties *)

(** ** Dictionaries *)

Section dict_facts.
Context {V : Type}.
Implicit Types (d : dict V) (k : string) (v : V).

Lemma elem_of_keyset d k : k ∈ keyset d ↔ k ∈ dict_keys d.
Proof. unfold keyset. by rewrite elem_of_list_to_set. Qed.

Lemma dict_get_Some_elem d k v : dict_get d k = Some v → (k, v) ∈ d.
Proof.
  induction d as [|[k' v'] d IH]; simpl; [done|].
  destruct (decide (k = k')) as [->|Hne].
  - intros [= ->]. left.
  - intros Hget. right. by apply IH.
Qed.

Lemma dict_get_None d k : dict_get d k = None ↔ k ∉ dict_keys d.
Proof.
  unfold dict_keys. induction d as [|[k' v'] d IH]; simpl.
  - split; [intros _; apply not_elem_of_nil | done].
  - rewrite not_elem_of_cons. destruct (decide (k = k')) as [->|Hne].
    + split; [done | by intros [? _]].
    + rewrite IH. tauto.
Qed.

Lemma dict_get_is_Some d k : is_Some (dict_get d k) ↔ k ∈ dict_keys d.
Proof.
  destruct (dict_get d k) eqn:Hget.
  - split; [intros _ | by eauto].
    apply dict_get_Some_elem in Hget.
    unfold dict_keys. apply list_elem_of_fmap. by exists (k, v).
  - apply dict_get_None in Hget. split; [by intros [? ?] | done].
Qed.

Lemma dict_get_elem d k v : dict_wf d → (k, v) ∈ d → dict_get d k = Some v.
Proof.
  unfold dict_wf, dict_keys.
  induction d as [|[k' v'] d IH]; simpl; intros Hwf Hin.
  - by apply elem_of_nil in Hin.
  - apply NoDup_cons in Hwf as [Hk' Hwf].
    apply elem_of_cons in Hin as [[= -> ->]|Hin].
    + by rewrite decide_True.
    + rewrite decide_False; [by apply IH|].
      intros ->. apply Hk'. apply list_elem_of_fmap. by exists (k', v).
Qed.

Lemma dict_get_set d k k' v :
  dict_get (dict_set d k v) k' = if decide (k' = k) then Some v else dict_get d k'.
Proof.
  induction d as [|[k0 v0] d IH]; simpl.
  - done.
  - destruct (decide (k = k0)) as [->|Hne]; simpl.
    + by destruct (decide (k' = k0)).
    + rewrite IH. destruct (decide (k' = k0)) as [->|?]; [|done].
      by rewrite decide_False.
Qed.

Lemma dict_keys_set d k v k' :
  k' ∈ dict_keys (dict_set d k v) ↔ k' = k ∨ k' ∈ dict_keys d.
Proof.
  rewrite <- !dict_get_is_Some, dict_get_set.
  destruct (decide (k' = k)) as [->|Hne].
  - split; [by left | by eauto].
  - split; [by right | by intros [?|?]].
Qed.

Lemma dict_keys_set_eq d k v :
  dict_keys (dict_set d k v) =
  if bool_decide (k ∈ dict_keys d) then dict_keys d else (dict_keys d ++ [k])%list.
Proof.
  unfold dict_keys. induction d as [|[k0 v0] d IH]; csimpl; [done|].
  destruct (decide (k = k0)) as [->|Hne]; csimpl.
  - rewrite bool_decide_eq_true_2; [done | left].
  - rewrite IH. destruct (bool_decide (k ∈ d.*1)) eqn:Hk.
    + apply bool_decide_eq_true in Hk.
      rewrite bool_decide_eq_true_2; [done | by right].
    + apply bool_decide_eq_false in Hk.
      rewrite bool_decide_eq_false_2; [done|].
      rewrite not_elem_of_cons. done.
Qed.

Lemma dict_set_wf d k v : dict_wf d → dict_wf (dict_set d k v).
Proof.
  unfold dict_wf. rewrite dict_keys_set_eq. intros Hwf.
  destruct (bool_decide (k ∈ dict_keys d)) eqn:Hk; [done|].
  apply bool_decide_eq_false in Hk.
  apply NoDup_app. split_and!; [done | | apply NoDup_singleton].
  intros x Hx ->%list_elem_of_singleton. done.
Qed.

Lemma dict_wf_unique d k v1 v2 :
  dict_wf d → (k, v1) ∈ d → (k, v2) ∈ d → v1 = v2.
Proof.
  intros Hwf H1 H2.
  apply (dict_get_elem _ _ _ Hwf) in H1, H2. congruence.
Qed.
End dict_facts.

(** ** Substrings *)

Lemma str_startswith_spec p t :
  str_startswith p t = true ↔ ∃ after, t = p +:+ after.
Proof.
  revert t. induction p as [|a p IH]; intros t; simpl.
  - split; [intros _; by exists t | done].
  - destruct t as [|b t].
    + split; [done | by intros [? ?]].
    + rewrite andb_true_iff, bool_decide_eq_true, IH. split.
      * intros [-> [after ->]]. by exists after.
      * intros [after [= -> ->]]. eauto.
Qed.

Lemma str_in_spec p t : str_in p t = true ↔ occurs_in p t.
Proof.
  unfold occurs_in. induction t as [|b t IH]; simpl.
  - rewrite orb_false_r, str_startswith_spec. split.
    + intros [after Hafter]. by exists "", after.
    + intros [before [after Heq]].
      destruct before; simpl in Heq; [by exists after | done].
  - rewrite orb_true_iff, IH, str_startswith_spec. split.
    + intros [[after Hafter]|[before [after ->]]].
      * by exists "", after.
      * by exists (String b before), after.
    + intros [before [after Heq]]. destruct before as [|c before]; simpl in Heq.
      * left. by exists after.
      * right. injection Heq as -> ->. by exists before, after.
Qed.

(** ** The classification loop *)

Lemma elem_of_dict_set {V} (d : dict V) k v k' v' :
  (k', v') ∈ dict_set d k v → (k', v') ∈ d ∨ (k' = k ∧ v' = v).
Proof.
  induction d as [|[k0 v0] d IH]; simpl.
  - intros [= -> ->]%list_elem_of_singleton. by right.
  - destruct (decide (k = k0)) as [->|Hne].
    + intros [[= -> ->]|Hin]%elem_of_cons; [by right|]. left. by right.
    + intros [[= -> ->]|Hin]%elem_of_cons; [left; left|].
      destruct (IH Hin) as [?|?]; [left; by right | by right].
Qed.

#[local] Arguments classify : simpl never.

Section classification.
Implicit Types (O R l : dict Z) (g : GapAnalysis) (s : string).

(** A key outside the items that remain keeps its entries. *)
Lemma classify_fold_other O l g s :
  s ∉ dict_keys l →
  let g' := foldl (classify O) g l in
  dict_get (missing_skills g') s = dict_get (missing_skills g) s ∧
  dict_get (matching_skills g') s = dict_get (matching_skills g) s ∧
  dict_get (below_level_skills g') s = dict_get (below_level_skills g) s.
Proof.
  cbv zeta. unfold dict_keys. revert g. induction l as [|[k r] l IH]; intros g Hs; csimpl in *.
  - done.
  - apply not_elem_of_cons in Hs as [Hne Hs].
    destruct (IH (classify O g (k, r)) Hs) as (-> & -> & ->).
    unfold classify. destruct (dict_get O k) as [level|]; [case_bool_decide|];
      simpl; rewrite dict_get_set, decide_False by done; done.
Qed.

(** Where an item of a well-formed requirement map ends up. *)
Lemma classify_fold_get O l g s r :
  dict_wf l → (s, r) ∈ l →
  let g' := foldl (classify O) g l in
  match dict_get O s with
  | None => dict_get (missing_skills g') s = Some (entry r 0)
  | Some level =>
      if bool_decide (level >= r)
      then dict_get (matching_skills g') s = Some (entry r level)
      else dict_get (below_level_skills g') s = Some (entry r level)
  end.
Proof.
  cbv zeta. unfold dict_wf, dict_keys. revert g.
  induction l as [|[k rk] l IH]; intros g Hwf Hin; csimpl in *.
  - by apply elem_of_nil in Hin.
  - apply NoDup_cons in Hwf as [Hk Hwf].
    apply elem_of_cons in Hin as [[= -> ->]|Hin]; [|by apply IH].
    destruct (classify_fold_other O l (classify O g (k, rk)) k Hk) as (Hmi & Hma & Hbe).
    unfold classify in *. destruct (dict_get O k) as [level|]; [case_bool_decide|]; simpl in *.
    + rewrite Hma, dict_get_set, decide_True; done.
    + rewrite Hbe, dict_get_set, decide_True; done.
    + rewrite Hmi, dict_get_set, decide_True; done.
Qed.

(** Every entry of the result was already there or comes from an item. *)
Lemma classify_fold_entries O l g :
  let g' := foldl (classify O) g l in
  (∀ s e, (s, e) ∈ missing_skills g' →
     (s, e) ∈ missing_skills g ∨
     (dict_get O s = None ∧ current_level e = 0 ∧ (s, required_level e) ∈ l)) ∧
  (∀ s e, (s, e) ∈ matching_skills g' →
     (s, e) ∈ matching_skills g ∨
     (dict_get O s = Some (current_level e) ∧ current_level e >= required_level e ∧
      (s, required_level e) ∈ l)) ∧
  (∀ s e, (s, e) ∈ below_level_skills g' →
     (s, e) ∈ below_level_skills g ∨
     (dict_get O s = Some (current_level e) ∧ current_level e < required_level e ∧
      (s, required_level e) ∈ l)).
Proof.
  cbv zeta. revert g. induction l as [|[k r] l IH]; intros g; simpl.
  - split_and!; intros; by left.
  - destruct (IH (classify O g (k, r))) as (Hmi & Hma & Hbe).
    assert (∀ s r', (s, r') ∈ l → (s, r') ∈ (k, r) :: l) as Hlater
      by (intros; by right).
    unfold classify in *.
    destruct (dict_get O k) as [level|] eqn:HO; [case_bool_decide|]; simpl in *.
    + split_and!; intros s e Hin.
      * destruct (Hmi _ _ Hin) as [?|(?&?&?)]; eauto 6.
      * destruct (Hma _ _ Hin) as [[?|[-> ->]]%elem_of_dict_set|(?&?&?)]; eauto 6.
        right. simpl. split_and!; [done | done | left].
      * destruct (Hbe _ _ Hin) as [?|(?&?&?)]; eauto 6.
    + split_and!; intros s e Hin.
      * destruct (Hmi _ _ Hin) as [?|(?&?&?)]; eauto 6.
      * destruct (Hma _ _ Hin) as [?|(?&?&?)]; eauto 6.
      * destruct (Hbe _ _ Hin) as [[?|[-> ->]]%elem_of_dict_set|(?&?&?)]; eauto 6.
        right. simpl. split_and!; [done | lia | left].
    + split_and!; intros s e Hin.
      * destruct (Hmi _ _ Hin) as [[?|[-> ->]]%elem_of_dict_set|(?&?&?)]; eauto 6.
        right. simpl. split_and!; [done | done | left].
      * destruct (Hma _ _ Hin) as [?|(?&?&?)]; eauto 6.
      * destruct (Hbe _ _ Hin) as [?|(?&?&?)]; eauto 6.
Qed.

(** The dictionaries built by the loop have pairwise distinct keys. *)
Lemma classify_fold_wf O l g :
  dict_wf (missing_skills g) → dict_wf (matching_skills g) →
  dict_wf (below_level_skills g) →
  let g' := foldl (classify O) g l in
  dict_wf (missing_skills g') ∧ dict_wf (matching_skills g') ∧
  dict_wf (below_level_skills g').
Proof.
  cbv zeta. revert g. induction l as [|[k r] l IH]; intros g Hmi Hma Hbe; simpl; [done|].
  apply IH; unfold classify;
    (destruct (dict_get O k) as [level|]; [case_bool_decide|]); simpl;
    try done; by apply dict_set_wf.
Qed.
End classification.

(** ** The advice loops *)

Section advice.
Context `{PyStr} `{Gemini}.

Lemma ask_json_returns prompt (st : State) :
  ∃ result w, ask_json prompt st = (inr result, {| world := w; calls := calls st |}).
Proof.
  unfold ask_json, try_except, mbind, M_bind, ask_model, loads, mret, M_ret, raise.
  destruct (generate_content prompt (world st)) as [[msg|t] w]; simpl.
  - eauto.
  - destruct (json_loads _); simpl; eauto.
Qed.

Lemma generate_learning_path_returns skill current target (st : State) :
  ∃ result w,
    generate_learning_path skill current target st =
    (inr result,
     {| world := w;
        calls := calls st ++ [LearningPathCall skill current target result] |}).
Proof.
  unfold generate_learning_path.
  destruct (ask_json_returns (LearningPathPrompt skill current target) st)
    as (result & w & Hask).
  exists result, w. unfold mbind, M_bind. rewrite Hask. done.
Qed.

Lemma get_skill_improvement_tips_returns skill current (st : State) :
  ∃ result w,
    get_skill_improvement_tips skill current st =
    (inr result,
     {| world := w; calls := calls st ++ [TipsCall skill current result] |}).
Proof.
  unfold get_skill_improvement_tips.
  destruct (ask_json_returns (TipsPrompt skill current) st) as (result & w & Hask).
  exists result, w. unfold mbind, M_bind. rewrite Hask. done.
Qed.

Lemma learning_path_loop_spec current_of items learning_paths (st : State) :
  ∃ results w,
    length results = length items ∧
    learning_path_loop current_of items learning_paths st =
    (inr (apply_results learning_paths items results),
     {| world := w; calls := calls st ++ logged current_of items results |}).
Proof.
  revert learning_paths st.
  induction items as [|[skill data] items IH]; intros learning_paths st; simpl.
  - exists [], (world st). split; [done|].
    unfold mret, M_ret, logged. simpl. rewrite app_nil_r. by destruct st.
  - destruct (generate_learning_path_returns skill (current_of data)
                (required_level data) st) as (result & w & Hcall).
    unfold mbind, M_bind. rewrite Hcall.
    edestruct IH as (results & w' & Hlen & Hloop). rewrite Hloop.
    exists (result :: results), w'. simpl. split; [by rewrite Hlen|].
    unfold logged. simpl. by rewrite <- app_assoc.
Qed.

Lemma analyze_skill_gap_spec resume_skills job_requirements (st : State) :
  let g := classify_all resume_skills job_requirements in
  ∃ results1 results2 w,
    length results1 = length (missing_skills g) ∧
    length results2 = length (below_level_skills g) ∧
    analyze_skill_gap resume_skills job_requirements st =
    (inr {| gap_analysis := g;
            learning_paths :=
              apply_results (apply_results [] (missing_skills g) results1)
                            (below_level_skills g) results2 |},
     {| world := w;
        calls := calls st ++ logged (λ _, 0) (missing_skills g) results1
                          ++ logged current_level (below_level_skills g) results2 |}).
Proof.
  intros g. unfold analyze_skill_gap, paths_for_missing, paths_for_below. fold g.
  destruct (learning_path_loop_spec (λ _, 0) (missing_skills g) [] st)
    as (results1 & w1 & Hlen1 & Hloop1).
  unfold mbind, M_bind. rewrite Hloop1.
  edestruct (learning_path_loop_spec current_level (below_level_skills g))
    as (results2 & w2 & Hlen2 & Hloop2).
  rewrite Hloop2. simpl.
  exists results1, results2, w2. rewrite <- app_assoc. done.
Qed.
End advice.

(** ** The gap analysis *)

Lemma elem_of_keyset_entry {V} (d : dict V) k : k ∈ keyset d ↔ ∃ v, (k, v) ∈ d.
Proof.
  rewrite elem_of_keyset. unfold dict_keys. rewrite list_elem_of_fmap. split.
  - intros [[k' v] [-> Hin]]. by exists v.
  - intros [v Hin]. by exists (k, v).
Qed.

Section gap_analysis_facts.
Implicit Types (O R : dict Z) (s : string).

Lemma classify_all_missing O R s e :
  (s, e) ∈ missing_skills (classify_all O R) →
  dict_get O s = None ∧ current_level e = 0 ∧ (s, required_level e) ∈ R.
Proof.
  intros Hin. apply classify_fold_entries in Hin as [Hin|?]; [|done].
  by apply elem_of_nil in Hin.
Qed.

Lemma classify_all_matching O R s e :
  (s, e) ∈ matching_skills (classify_all O R) →
  dict_get O s = Some (current_level e) ∧ current_level e >= required_level e ∧
  (s, required_level e) ∈ R.
Proof.
  intros Hin. apply classify_fold_entries in Hin as [Hin|?]; [|done].
  by apply elem_of_nil in Hin.
Qed.

Lemma classify_all_below O R s e :
  (s, e) ∈ below_level_skills (classify_all O R) →
  dict_get O s = Some (current_level e) ∧ current_level e < required_level e ∧
  (s, required_level e) ∈ R.
Proof.
  intros Hin. apply classify_fold_entries in Hin as [Hin|?]; [|done].
  by apply elem_of_nil in Hin.
Qed.

Lemma classify_all_wf O R :
  dict_wf (missing_skills (classify_all O R)) ∧
  dict_wf (matching_skills (classify_all O R)) ∧
  dict_wf (below_level_skills (classify_all O R)).
Proof. apply classify_fold_wf; apply NoDup_nil_2. Qed.

Lemma classify_all_disjoint O R :
  dict_wf R →
  let g := classify_all O R in
  keyset (matching_skills g) ## keyset (below_level_skills g) ∧
  keyset (matching_skills g) ## keyset (missing_skills g) ∧
  keyset (below_level_skills g) ## keyset (missing_skills g).
Proof.
  intros Hwf g. split_and!; intros s [e1 H1]%elem_of_keyset_entry [e2 H2]%elem_of_keyset_entry.
  - apply classify_all_matching in H1 as (HO1 & Hge & HR1).
    apply classify_all_below in H2 as (HO2 & Hlt & HR2).
    pose proof (dict_wf_unique _ _ _ _ Hwf HR1 HR2). simplify_eq. lia.
  - apply classify_all_matching in H1 as (HO1 & _ & _).
    apply classify_all_missing in H2 as (HO2 & _ & _). congruence.
  - apply classify_all_below in H1 as (HO1 & _ & _).
    apply classify_all_missing in H2 as (HO2 & _ & _). congruence.
Qed.

Lemma classify_all_cover O R :
  dict_wf R →
  let g := classify_all O R in
  keyset (matching_skills g) ∪ keyset (below_level_skills g)
    ∪ keyset (missing_skills g) = keyset R.
Proof.
  intros Hwf g. apply set_eq. intros s.
  rewrite !elem_of_union, !elem_of_keyset_entry. split.
  - intros [[[e He]|[e He]]|[e He]]; exists (required_level e).
    + by apply classify_all_matching in He as (_ & _ & ?).
    + by apply classify_all_below in He as (_ & _ & ?).
    + by apply classify_all_missing in He as (_ & _ & ?).
  - intros [r Hr].
    pose proof (classify_fold_get O R
      {| missing_skills := []; matching_skills := []; below_level_skills := [] |}
      s r Hwf Hr) as Hget.
    cbv zeta in Hget. fold (classify_all O R) in Hget. fold g in Hget.
    destruct (dict_get O s) as [level|]; [case_bool_decide|];
      apply dict_get_Some_elem in Hget; eauto.
Qed.
End gap_analysis_facts.

(** C1. For an observed map [O] and a required map [R] (a dictionary, so
    with pairwise distinct keys), the analysis returns, and the key sets
    of its three partitions are pairwise disjoint and together are exactly
    the key set of [R]; a skill of [O] that [R] does not require is in
    none of the partitions. *)
Theorem C1_partitions `{PyStr} `{Gemini} (O R : dict Z) (st : State) :
  dict_wf R →
  ∃ a st', analyze_skill_gap O R st = (inr a, st') ∧
    let g := gap_analysis a in
    keyset (matching_skills g) ## keyset (below_level_skills g) ∧
    keyset (matching_skills g) ## keyset (missing_skills g) ∧
    keyset (below_level_skills g) ## keyset (missing_skills g) ∧
    keyset (matching_skills g) ∪ keyset (below_level_skills g)
      ∪ keyset (missing_skills g) = keyset R ∧
    ∀ s, s ∈ keyset O → s ∉ keyset R →
         (s ∉ keyset (matching_skills g)) ∧ (s ∉ keyset (below_level_skills g)) ∧
         (s ∉ keyset (missing_skills g)).
Proof.
  intros Hwf.
  destruct (analyze_skill_gap_spec O R st) as (results1 & results2 & w & _ & _ & Hrun).
  eexists _, _. split; [exact Hrun|]. simpl.
  destruct (classify_all_disjoint O R Hwf) as (Hd1 & Hd2 & Hd3).
  pose proof (classify_all_cover O R Hwf) as Hcover. cbv zeta in Hcover.
  split_and!; try done.
  intros s _ HsR. rewrite <- Hcover, !not_elem_of_union in HsR. tauto.
Qed.

(** C2. With the observed levels between 1 and 5 and [R] a dictionary, a
    skill [s] required at level [r] is placed as follows: absent from [O],
    in [missing_skills] with current level 0 and required level [r]; at a
    level of at least [r], in [matching_skills] with that level; at a lower
    level, in [below_level_skills] with that level, and then both the gap
    [r - level] and the level are strictly positive. (The range of the
    required levels is not needed.) *)
Theorem C2_placement `{PyStr} `{Gemini} (O R : dict Z) (st : State) (s : string) (r : Z) :
  levels_in_range O → dict_wf R → dict_get R s = Some r →
  ∃ a st', analyze_skill_gap O R st = (inr a, st') ∧
    let g := gap_analysis a in
    (s ∉ dict_keys O → dict_get (missing_skills g) s = Some (entry r 0)) ∧
    (∀ level, dict_get O s = Some level → level >= r →
       dict_get (matching_skills g) s = Some (entry r level)) ∧
    (∀ level, dict_get O s = Some level → level < r →
       dict_get (below_level_skills g) s = Some (entry r level) ∧
       r - level > 0 ∧ level > 0).
Proof.
  intros HO Hwf HR.
  destruct (analyze_skill_gap_spec O R st) as (results1 & results2 & w & _ & _ & Hrun).
  eexists _, _. split; [exact Hrun|]. simpl.
  apply dict_get_Some_elem in HR.
  pose proof (classify_fold_get O R
    {| missing_skills := []; matching_skills := []; below_level_skills := [] |}
    s r Hwf HR) as Hget.
  cbv zeta in Hget. fold (classify_all O R) in Hget.
  split_and!.
  - intros Hs%dict_get_None. by rewrite Hs in Hget.
  - intros level Hlevel Hge. rewrite Hlevel in Hget.
    by rewrite bool_decide_eq_true_2 in Hget.
  - intros level Hlevel Hlt. rewrite Hlevel in Hget.
    rewrite bool_decide_eq_false_2 in Hget by lia.
    specialize (HO _ _ Hlevel). split_and!; [done | lia | lia].
Qed.

(** ** The proficiency estimator *)

Lemma str_app_empty_r (s : string) : s +:+ "" = s.
Proof.
  induction s as [|c s IH]; [done|].
  change (String c (s +:+ "") = String c s). by rewrite IH.
Qed.

Section estimator.
Context `{PyStr}.

Lemma any_in_spec phrases text_lower :
  any_in phrases text_lower = true ↔
  ∃ phrase, phrase ∈ phrases ∧ occurs_in phrase text_lower.
Proof.
  unfold any_in. rewrite existsb_exists. split.
  - intros (phrase & Hin%list_elem_of_In & Hocc%str_in_spec). eauto.
  - intros (phrase & Hin%list_elem_of_In & Hocc%str_in_spec). eauto.
Qed.

(** The phrase lists of the code are the templates of the specification. *)
Lemma phrases_templates skill :
  phrases5 (lower skill) = (λ '(b, a), b +:+ lower skill +:+ a) <$> tier_templates 5 ∧
  phrases4 (lower skill) = (λ '(b, a), b +:+ lower skill +:+ a) <$> tier_templates 4 ∧
  phrases3 (lower skill) = (λ '(b, a), b +:+ lower skill +:+ a) <$> tier_templates 3 ∧
  phrases2 (lower skill) = (λ '(b, a), b +:+ lower skill +:+ a) <$> tier_templates 2.
Proof.
  unfold phrases5, phrases4, phrases3, phrases2, tier_templates. simpl.
  rewrite !str_app_empty_r. done.
Qed.

Lemma tier_hit_phrases level phrases skill text :
  phrases = (λ '(b, a), b +:+ lower skill +:+ a) <$> tier_templates level →
  any_in phrases (lower text) = true ↔ tier_hit level skill text.
Proof.
  intros ->. rewrite any_in_spec. unfold tier_hit. split.
  - intros (phrase & ([b a] & -> & Hin)%list_elem_of_fmap & Hocc). eauto.
  - intros (b & a & Hin & Hocc). eexists. split; [|exact Hocc].
    apply list_elem_of_fmap. by exists (b, a).
Qed.

Lemma tier_hit_level level skill text :
  tier_hit level skill text → level = 5 ∨ level = 4 ∨ level = 3 ∨ level = 2.
Proof.
  intros (b & a & Hin & _). unfold tier_templates in Hin.
  repeat case_decide; try tauto. by apply elem_of_nil in Hin.
Qed.

(** The estimator, read off the tiers that hit. *)
Lemma _estimate_proficiency_cases skill text :
  let level := _estimate_proficiency skill text in
  (tier_hit 5 skill text ∧ level = 5) ∨
  (¬ tier_hit 5 skill text ∧ tier_hit 4 skill text ∧ level = 4) ∨
  (¬ tier_hit 5 skill text ∧ ¬ tier_hit 4 skill text ∧ tier_hit 3 skill text ∧
   level = 3) ∨
  (¬ tier_hit 5 skill text ∧ ¬ tier_hit 4 skill text ∧ ¬ tier_hit 3 skill text ∧
   tier_hit 2 skill text ∧ level = 2) ∨
  (¬ tier_hit 5 skill text ∧ ¬ tier_hit 4 skill text ∧ ¬ tier_hit 3 skill text ∧
   ¬ tier_hit 2 skill text ∧ level = 1).
Proof.
  destruct (phrases_templates skill) as (H5 & H4 & H3 & H2).
  pose proof (tier_hit_phrases 5 _ skill text H5) as T5.
  pose proof (tier_hit_phrases 4 _ skill text H4) as T4.
  pose proof (tier_hit_phrases 3 _ skill text H3) as T3.
  pose proof (tier_hit_phrases 2 _ skill text H2) as T2.
  cbv zeta. unfold _estimate_proficiency.
  destruct (any_in (phrases5 _) _); [left; split; [by apply T5 | done]|].
  assert (¬ tier_hit 5 skill text) by (rewrite <- T5; done).
  destruct (any_in (phrases4 _) _); [right; left; split_and!; [done | by apply T4 | done]|].
  assert (¬ tier_hit 4 skill text) by (rewrite <- T4; done).
  destruct (any_in (phrases3 _) _);
    [right; right; left; split_and!; [done | done | by apply T3 | done]|].
  assert (¬ tier_hit 3 skill text) by (rewrite <- T3; done).
  destruct (any_in (phrases2 _) _);
    [right; right; right; left; split_and!; [done | done | done | by apply T2 | done]|].
  assert (¬ tier_hit 2 skill text) by (rewrite <- T2; done).
  right; right; right; right. done.
Qed.
End estimator.

(** C3. The estimator returns the level of the highest tier one of whose
    phrases, with the lowercased skill substituted, occurs in the
    lowercased text, and 1 when no tier has such a phrase; a text with a
    phrase of tier 3 and a phrase of tier 5 gets 5. *)
Theorem C3_highest_tier `{PyStr} (skill text : string) :
  (∀ level, tier_hit level skill text →
     (∀ level', level < level' → ¬ tier_hit level' skill text) →
     _estimate_proficiency skill text = level) ∧
  ((∀ level, ¬ tier_hit level skill text) → _estimate_proficiency skill text = 1) ∧
  (tier_hit 3 skill text → tier_hit 5 skill text →
     _estimate_proficiency skill text = 5).
Proof.
  pose proof (_estimate_proficiency_cases skill text) as Hcases. cbv zeta in Hcases.
  split_and!.
  - intros level Hhit Hhighest.
    pose proof (tier_hit_level _ _ _ Hhit) as Hlevel.
    destruct Hcases as [ (T5 & ->) | [ (N5 & T4 & ->) | [ (N5 & N4 & T3 & ->)|
      [(N5 & N4 & N3 & T2 & ->) | (N5 & N4 & N3 & N2 & ->) ] ] ] ].
    + destruct (decide (level = 5)) as [->|?]; [done|].
      destruct (Hhighest 5); [lia | done].
    + destruct Hlevel as [-> | [-> | [-> | ->] ] ]; try done.
      all: destruct (Hhighest 4); [lia | done].
    + destruct Hlevel as [-> | [-> | [-> | ->] ] ]; try done.
      destruct (Hhighest 3); [lia | done].
    + destruct Hlevel as [-> | [-> | [-> | ->] ] ]; done.
    + destruct Hlevel as [-> | [-> | [-> | ->] ] ]; done.
  - intros Hnone.
    destruct Hcases as [ (T5 & _) | [ (_ & T4 & _) | [ (_ & _ & T3 & _)|
      [(_ & _ & _ & T2 & _) | (_ & _ & _ & _ & ->) ] ] ] ]; [| | | |done];
      by edestruct Hnone.
  - intros _ T5.
    destruct Hcases as [ (_ & ->) | [ (N5 & _) | [ (N5 & _) | [ (N5 & _) | (N5 & _) ] ] ] ]; done.
Qed.

(** ** The skill extractor *)

Section extractor.
Context `{PyStr} `{Files} {Meta : Type}.
Implicit Types (self : Parser Meta) (k skill text : string).

Lemma skill_found_spec self k : skill_found self k = true ↔ ontology_key self k.
Proof.
  unfold skill_found, ontology_key. rewrite existsb_exists. split.
  - intros ([category skills_data] & Hin%list_elem_of_In & Hk).
    apply bool_decide_eq_true in Hk. eauto.
  - intros (category & skills_data & Hin%list_elem_of_In & Hk).
    exists (category, skills_data). split; [done|]. by apply bool_decide_eq_true.
Qed.

(** The entries of the skill map: each comes from a candidate that is an
    ontology key, with the level the estimator gives it. *)
Lemma skill_levels_fold self text skills (acc : dict Z) k v :
  (k, v) ∈ foldl (λ skill_levels skill,
                    if skill_found self skill
                    then dict_set skill_levels skill (_estimate_proficiency skill text)
                    else skill_levels) acc skills →
  (k, v) ∈ acc ∨
  (k ∈ skills ∧ skill_found self k = true ∧ v = _estimate_proficiency k text).
Proof.
  revert acc. induction skills as [|skill skills IH]; intros acc; simpl; [by left|].
  intros [Hacc|(Hk & Hfound & Hv)]%IH.
  - destruct (skill_found self skill) eqn:Hfound; [|by left].
    apply elem_of_dict_set in Hacc as [?|[-> ->]]; [by left|].
    right. split_and!; [left | done | done].
  - right. split_and!; [by right | done | done].
Qed.

Lemma skill_levels_of_entry self text skills k v :
  (k, v) ∈ skill_levels_of self text skills →
  k ∈ skills ∧ ontology_key self k ∧ v = _estimate_proficiency k text.
Proof.
  intros [Hnil|(Hk & Hfound%skill_found_spec & Hv)]%skill_levels_fold; [|done].
  by apply elem_of_nil in Hnil.
Qed.

Lemma skill_levels_of_key self text skills k :
  k ∈ dict_keys (skill_levels_of self text skills) →
  k ∈ skills ∧ ontology_key self k.
Proof.
  intros [v Hin]%elem_of_keyset%elem_of_keyset_entry.
  by apply skill_levels_of_entry in Hin as (? & ? & _).
Qed.

Lemma skill_levels_fold_keeps self text skills (acc : dict Z) k :
  k ∈ dict_keys acc →
  k ∈ dict_keys (foldl (λ skill_levels skill,
                    if skill_found self skill
                    then dict_set skill_levels skill (_estimate_proficiency skill text)
                    else skill_levels) acc skills).
Proof.
  revert acc. induction skills as [|skill skills IH]; intros acc Hk; simpl; [done|].
  apply IH. destruct (skill_found self skill); [|done].
  apply dict_keys_set. by right.
Qed.

(** Conversely, a candidate that is an ontology key gets an entry. *)
Lemma skill_levels_of_complete self text skills k :
  k ∈ skills → ontology_key self k →
  k ∈ dict_keys (skill_levels_of self text skills).
Proof.
  unfold skill_levels_of. generalize (@nil (string * Z)).
  induction skills as [|skill skills IH]; intros acc Hk Hkey; simpl.
  - by apply elem_of_nil in Hk.
  - apply elem_of_cons in Hk as [<-|Hk]; [|by apply IH].
    apply skill_found_spec in Hkey. rewrite Hkey.
    apply skill_levels_fold_keeps, dict_keys_set. by left.
Qed.

Lemma _estimate_proficiency_range skill text :
  1 ≤ _estimate_proficiency skill text ≤ 5.
Proof. unfold _estimate_proficiency. repeat case_match; lia. Qed.

(** What the ontology scan adds to the set. *)
Lemma ontology_scan_elem self text (skills : gset string) k :
  k ∈ ontology_scan self text skills →
  k ∈ skills ∨ (ontology_key self k ∧ str_in (lower k) (lower text) = true).
Proof.
  unfold ontology_scan, ontology_key.
  revert skills. induction (ontology_skills self) as [|[category skills_data] l IH];
    intros skills; simpl; [by left|].
  intros [Hin|[(c & d & Hcd & Hk) Hocc]]%IH.
  - assert (k ∈ skills ∨ (k ∈ dict_keys skills_data ∧
              str_in (lower k) (lower text) = true)) as [?|[? ?]];
      [|by left|right; split; [|done]; exists category, skills_data; split; [left|done]].
    clear IH. revert skills Hin.
    induction (dict_keys skills_data) as [|skill keys IHk]; intros skills; simpl;
      [by left|].
    intros [Hin|[? ?]]%IHk.
    + destruct (str_in (lower skill) (lower text)) eqn:Hocc; [|by left].
      apply elem_of_union in Hin as [->%elem_of_singleton|?]; [|by left].
      right. split; [left | done].
    + right. split; [by right | done].
  - right. split; [|done]. exists c, d. split; [by right | done].
Qed.

Lemma pdf_concat_error pages text e :
  pdf_concat pages text = inl e → ∃ msg, e = LibraryError msg.
Proof.
  revert text. induction pages as [|[msg|page] pages IH]; intros text; simpl.
  - done.
  - intros [= <-]. eauto.
  - apply IH.
Qed.

(** A failure of one of the three readers is a failure of its library. *)
Lemma reader_error file_path e :
  extract_text_from_pdf file_path = inl e ∨
  extract_text_from_docx file_path = inl e ∨
  extract_text_from_txt file_path = inl e →
  ∃ msg, e = LibraryError msg.
Proof.
  unfold extract_text_from_pdf, extract_text_from_docx, extract_text_from_txt, library.
  intros [Hpdf|[Hdocx|Htxt]].
  - destruct (pdf_pages file_path); [injection Hpdf as <-; eauto|].
    by eapply pdf_concat_error.
  - destruct (docx_paragraphs file_path); [injection Hdocx as <-; eauto | done].
  - destruct (read_text file_path); [injection Htxt as <-; eauto | done].
Qed.
End extractor.

Lemma parse_resume_returns `{PyStr} `{Files} {Meta} (self : Parser Meta) file_path text :
  extract_text file_path = inr text →
  parse_resume self file_path =
  inr (skill_levels_of self text (_extract_skills_with_nlp self text)).
Proof. intros Htext. unfold parse_resume. by rewrite Htext. Qed.

(** C4. When the text of the document is read, the parser returns a skill
    map; each of its keys is a candidate of the extraction and its name
    matches, case-insensitively, a skill key of some category of the
    ontology; a candidate whose name matches no ontology key
    case-insensitively is not in the map. *)
Theorem C4_controlled_vocabulary `{PyStr} `{Files} {Meta} (self : Parser Meta)
    (file_path text : string) :
  extract_text file_path = inr text →
  ∃ skill_levels, parse_resume self file_path = inr skill_levels ∧
    (∀ k, k ∈ dict_keys skill_levels →
       k ∈ _extract_skills_with_nlp self text ∧
       ∃ key, ontology_key self key ∧ lower k = lower key) ∧
    (∀ c, c ∈ _extract_skills_with_nlp self text →
       (∀ key, ontology_key self key → lower c ≠ lower key) →
       c ∉ dict_keys skill_levels).
Proof.
  intros Htext. eexists. split; [by apply parse_resume_returns|]. split.
  - intros k [Hcand Hkey]%skill_levels_of_key. split; [done|]. by exists k.
  - intros c _ Hnone [_ Hkey]%skill_levels_of_key. by apply (Hnone c).
Qed.

(** C7. The estimator returns a level between 1 and 5; every level of the
    skill map returned by the parser lies between 1 and 5; and in a gap
    analysis of such a map the current level 0 is that of the missing
    skills: the entries of [matching_skills] and [below_level_skills] carry
    a level between 1 and 5. *)
Theorem C7_levels `{PyStr} `{Files} `{Gemini} {Meta} (self : Parser Meta)
    (file_path : string) :
  (∀ skill text, 1 ≤ _estimate_proficiency skill text ≤ 5) ∧
  (∀ O, parse_resume self file_path = inr O →
     (∀ s v, (s, v) ∈ O → 1 ≤ v ≤ 5) ∧
     ∀ R st, ∃ a st', analyze_skill_gap O R st = (inr a, st') ∧
       (∀ s e, (s, e) ∈ missing_skills (gap_analysis a) →
          current_level e = 0 ∧ s ∉ dict_keys O) ∧
       (∀ s e, (s, e) ∈ matching_skills (gap_analysis a) ∨
               (s, e) ∈ below_level_skills (gap_analysis a) →
          1 ≤ current_level e ≤ 5)).
Proof.
  split; [intros; apply _estimate_proficiency_range|].
  intros O Hparse.
  assert (∀ s v, (s, v) ∈ O → 1 ≤ v ≤ 5) as Hrange.
  { unfold parse_resume in Hparse.
    destruct (extract_text file_path) as [e|text]; [done|].
    injection Hparse as <-. intros k v (_ & _ & ->)%skill_levels_of_entry.
    apply _estimate_proficiency_range. }
  split; [done|]. intros R st.
  destruct (analyze_skill_gap_spec O R st) as (results1 & results2 & w & _ & _ & Hrun).
  eexists _, _. split; [exact Hrun|]. simpl. split.
  - intros s e (HO & Hzero & _)%classify_all_missing.
    split; [done | by apply dict_get_None].
  - intros s e [(HO & _)%classify_all_matching|(HO & _)%classify_all_below];
      apply dict_get_Some_elem in HO; by apply Hrange in HO.
Qed.

(** C8, as amended. When the ontology has no empty skill name and the
    document text is empty, the candidate list is empty and the parser
    returns the empty skill map; that [str.lower] maps the empty string,
    and nothing else, to the empty string, and that spaCy yields no token
    for the empty text, are facts of the libraries. *)
Theorem C8_empty_text `{PyStr} `{Files} {Meta} (self : Parser Meta) (file_path : string) :
  lower "" = "" → (∀ k, lower k = "" → k = "") → nlp self "" = [] →
  ¬ ontology_key self "" →
  extract_text file_path = inr "" →
  _extract_skills_with_nlp self "" = [] ∧ parse_resume self file_path = inr [].
Proof.
  intros Hlower Hnonempty Hnlp Hkey Htext.
  assert (_extract_skills_with_nlp self "" = []) as Hnone.
  { unfold _extract_skills_with_nlp. rewrite Hlower, Hnlp. simpl.
    apply elements_empty_iff, elem_of_equiv_empty.
    intros k [Hk|[Hk Hocc]]%ontology_scan_elem; [by apply not_elem_of_empty in Hk|].
    rewrite Hlower in Hocc. simpl in Hocc. rewrite orb_false_r in Hocc.
    destruct (lower k) eqn:Hk'; [|done].
    apply Hnonempty in Hk' as ->. done. }
  split; [done|].
  rewrite (parse_resume_returns self file_path "" Htext), Hnone. done.
Qed.

(** C9. [extract_text] fails with the unsupported-format error exactly
    when the lowercased suffix of the path is none of [.pdf], [.docx] and
    [.txt]; and whenever [extract_text] fails, [parse_resume] fails with
    the extraction error for that path, which carries the message of the
    failure, and returns no skill map. *)
Theorem C9_extraction_errors `{PyStr} `{Files} {Meta} (self : Parser Meta)
    (file_path : string) :
  ((∃ suffix, extract_text file_path = inl (UnsupportedFormat suffix)) ↔
   lower (path_suffix file_path) ∉ [".pdf"; ".docx"; ".txt"]) ∧
  (∀ e, extract_text file_path = inl e →
     parse_resume self file_path = inl (ExtractionError file_path (str e))).
Proof.
  split.
  - unfold extract_text. rewrite !not_elem_of_cons.
    destruct (decide (lower (path_suffix file_path) = ".pdf")) as [Hpdf|Hpdf].
    { split; [|tauto]. intros [suffix Hfail]. exfalso.
      destruct (reader_error file_path (UnsupportedFormat suffix)) as [? ?]; [|done].
      by left. }
    destruct (decide (lower (path_suffix file_path) = ".docx")) as [Hdocx|Hdocx].
    { split; [|tauto]. intros [suffix Hfail]. exfalso.
      destruct (reader_error file_path (UnsupportedFormat suffix)) as [? ?]; [|done].
      right. by left. }
    destruct (decide (lower (path_suffix file_path) = ".txt")) as [Htxt|Htxt].
    { split; [|tauto]. intros [suffix Hfail]. exfalso.
      destruct (reader_error file_path (UnsupportedFormat suffix)) as [? ?]; [|done].
      right. by right. }
    split; [intros _ | by eauto].
    split_and!; [done | done | done | apply not_elem_of_nil].
  - intros e He. unfold parse_resume. by rewrite He.
Qed.

(** C10. When the text of the document is read, the keys of the returned
    skill map are exactly the candidates that are, character for
    character, a skill key of some category of the ontology. So a
    candidate of the pattern scan that is in lowercase is kept only as an
    ontology key that is itself in lowercase, and if no two ontology keys
    differ only in case then no two keys of the map do. *)
Theorem C10_exact_keys `{PyStr} `{Files} {Meta} (self : Parser Meta)
    (file_path text : string) :
  extract_text file_path = inr text →
  ∃ skill_levels, parse_resume self file_path = inr skill_levels ∧
    (∀ k, k ∈ dict_keys skill_levels ↔
          k ∈ _extract_skills_with_nlp self text ∧ ontology_key self k) ∧
    (∀ c, c ∈ pattern_scan (nlp self (lower text)) ∅ → lower c = c →
          c ∈ dict_keys skill_levels →
          ∃ key, ontology_key self key ∧ key = c ∧ lower key = key) ∧
    ((∀ k1 k2, ontology_key self k1 → ontology_key self k2 →
               lower k1 = lower k2 → k1 = k2) →
     ∀ k1 k2, k1 ∈ dict_keys skill_levels → k2 ∈ dict_keys skill_levels →
              lower k1 = lower k2 → k1 = k2).
Proof.
  intros Htext. eexists. split; [by apply parse_resume_returns|]. split_and!.
  - intros k. split; [apply skill_levels_of_key|].
    intros [Hcand Hkey]. by apply skill_levels_of_complete.
  - intros c _ Hlow [_ Hkey]%skill_levels_of_key. by exists c.
  - intros Hunique k1 k2 [_ Hk1]%skill_levels_of_key [_ Hk2]%skill_levels_of_key.
    by apply Hunique.
Qed.

(** ** The partitions, in order *)

Lemma dict_set_fresh {V} (d : dict V) k v :
  k ∉ dict_keys d → dict_set d k v = d ++ [(k, v)].
Proof.
  unfold dict_keys. induction d as [|[k0 v0] d IH]; csimpl; [done|].
  rewrite not_elem_of_cons. intros [Hne Hk].
  rewrite decide_False by done. by rewrite IH.
Qed.

Section partitions.
Implicit Types (O R l : dict Z) (g : GapAnalysis).

(** The loop appends: with requirements not yet placed and pairwise
    distinct, each partition grows by the entries of its items, in
    order. *)
Lemma classify_fold_append O l g :
  dict_wf l →
  (∀ s, s ∈ dict_keys l →
        (s ∉ dict_keys (missing_skills g)) ∧ (s ∉ dict_keys (matching_skills g)) ∧
        (s ∉ dict_keys (below_level_skills g))) →
  missing_skills (foldl (classify O) g l) = missing_skills g ++ omap (missing_item O) l ∧
  matching_skills (foldl (classify O) g l)
  = matching_skills g ++ omap (matching_item O) l ∧
  below_level_skills (foldl (classify O) g l)
  = below_level_skills g ++ omap (below_item O) l.
Proof.
  unfold dict_wf. revert g.
  induction l as [|[k r] l IH]; intros g Hwf Hfresh; csimpl.
  - by rewrite !app_nil_r.
  - unfold dict_keys in Hwf. rewrite fmap_cons in Hwf.
    apply NoDup_cons in Hwf as [Hk Hwf].
    destruct (Hfresh k) as (Hmi & Hma & Hbe); [left|].
    assert (∀ s, s ∈ dict_keys l → s ≠ k) as Hother by (intros s Hs ->; done).
    assert (∀ s, s ∈ dict_keys l →
              (s ∉ dict_keys (missing_skills g)) ∧ (s ∉ dict_keys (matching_skills g)) ∧
              (s ∉ dict_keys (below_level_skills g))) as Hfresh'
      by (intros s Hs; apply Hfresh; by right).
    assert (∀ s, s ∈ dict_keys l →
              (s ∉ dict_keys (missing_skills (classify O g (k, r)))) ∧
              (s ∉ dict_keys (matching_skills (classify O g (k, r)))) ∧
              (s ∉ dict_keys (below_level_skills (classify O g (k, r))))) as Hstep.
    { intros s Hs. destruct (Hfresh' s Hs) as (? & ? & ?). pose proof (Hother s Hs).
      unfold classify. destruct (dict_get O k) as [level|]; [case_bool_decide|];
        simpl; rewrite ?dict_keys_set; tauto. }
    destruct (IH (classify O g (k, r)) Hwf Hstep) as (-> & -> & ->).
    unfold missing_item at 2, matching_item at 2, below_item at 2, classify. simpl.
    destruct (dict_get O k) as [level|]; [case_bool_decide|]; simpl;
      rewrite dict_set_fresh by done; by rewrite <- ?app_assoc.
Qed.

Lemma partition_lengths O l :
  (length (omap (matching_item O) l) + length (omap (below_item O) l)
   + length (omap (missing_item O) l))%nat = length l.
Proof.
  induction l as [|[k r] l IH]; [done|]. csimpl.
  unfold matching_item at 1, below_item at 1, missing_item at 1. simpl.
  destruct (dict_get O k); [case_bool_decide|]; simpl; lia.
Qed.
End partitions.

Lemma classify_all_in_order (O R : dict Z) :
  dict_wf R →
  missing_skills (classify_all O R) = omap (missing_item O) R ∧
  matching_skills (classify_all O R) = omap (matching_item O) R ∧
  below_level_skills (classify_all O R) = omap (below_item O) R.
Proof.
  intros Hwf.
  apply (classify_fold_append O R
    {| missing_skills := []; matching_skills := []; below_level_skills := [] |} Hwf).
  intros s _. simpl. split_and!; apply not_elem_of_nil.
Qed.

(** ** The call log *)

Lemma count_NoDup (l : list string) (s : string) :
  NoDup l →
  length (filter (λ x, x = s) l) = if bool_decide (s ∈ l) then 1%nat else 0%nat.
Proof.
  induction l as [|x l IH]; intros Hnd; [done|].
  apply NoDup_cons in Hnd as [Hx Hnd]. rewrite filter_cons.
  destruct (decide (x = s)) as [->|Hne]; simpl.
  - rewrite bool_decide_eq_true_2 by left.
    rewrite IH, bool_decide_eq_false_2; done.
  - rewrite IH by done.
    rewrite (bool_decide_ext (s ∈ x :: l) (s ∈ l)); [done|].
    rewrite elem_of_cons. split; [intros [?|?]; [congruence | done] | by right].
Qed.

Lemma NoDup_fmap_unique {A B} (f : A → B) (l : list A) x y :
  NoDup (f <$> l) → x ∈ l → y ∈ l → f x = f y → x = y.
Proof.
  induction l as [|a l IH]; csimpl; intros Hnd Hx Hy Hf.
  - by apply elem_of_nil in Hx.
  - apply NoDup_cons in Hnd as [Ha Hnd].
    apply elem_of_cons in Hx as [->|Hx]; apply elem_of_cons in Hy as [->|Hy].
    + done.
    + destruct Ha. rewrite Hf. apply list_elem_of_fmap. eauto.
    + destruct Ha. rewrite <- Hf. apply list_elem_of_fmap. eauto.
    + by apply IH.
Qed.

Section call_log.
Context `{PyStr} `{Gemini}.
Implicit Types (items : dict GapEntry) (results : list (Result Json)).

Lemma call_count_skills s (log : list Call) :
  call_count s log = length (filter (λ x, x = s) (call_skill <$> log)).
Proof.
  unfold call_count. induction log as [|c log IH]; [done|].
  rewrite fmap_cons, !filter_cons.
  destruct (decide (call_skill c = s)); simpl; by rewrite IH.
Qed.

Lemma logged_requests current_of items results :
  length results = length items →
  learning_path_requests (logged current_of items results)
  = (λ '(s, e), (s, current_of e, required_level e)) <$> items ∧
  tips_requests (logged current_of items results) = [] ∧
  call_skill <$> logged current_of items results = dict_keys items.
Proof.
  unfold learning_path_requests, tips_requests, logged, dict_keys.
  revert results. induction items as [|[s e] items IH]; intros [|r results] Hlen;
    try done.
  injection Hlen as Hlen. destruct (IH results Hlen) as (IH1 & IH2 & IH3).
  csimpl. rewrite IH1, IH2, IH3. done.
Qed.

Lemma apply_results_keys current_of (learning_paths : dict Json) items results k :
  k ∈ dict_keys (apply_results learning_paths items results) ↔
  k ∈ dict_keys learning_paths ∨
  ∃ c t d, LearningPathCall k c t (Success d) ∈ logged current_of items results.
Proof.
  unfold logged. revert learning_paths results.
  induction items as [|[s e] items IH]; intros learning_paths [|r results]; simpl.
  - split; [by left|]. intros [?|(c & t & d & Hin)]; [done|]. by apply elem_of_nil in Hin.
  - split; [by left|]. intros [?|(c & t & d & Hin)]; [done|]. by apply elem_of_nil in Hin.
  - split; [by left|]. intros [?|(c & t & d & Hin)]; [done|]. by apply elem_of_nil in Hin.
  - rewrite IH. destruct r as [d0|error].
    + rewrite dict_keys_set. split.
      * intros [[->|?]|(c & t & d & Hin)].
        -- right. exists (current_of e), (required_level e), d0. left.
        -- by left.
        -- right. exists c, t, d. by right.
      * intros [?|(c & t & d & Hin)]; [left; by right|].
        apply elem_of_cons in Hin as [[= -> _ _ _]|Hin]; [left; by left|].
        right. eauto.
    + split.
      * intros [?|(c & t & d & Hin)]; [by left|]. right. exists c, t, d. by right.
      * intros [?|(c & t & d & Hin)]; [by left|].
        apply elem_of_cons in Hin as [[=]|Hin]. right. eauto.
Qed.

(** The calls of one analysis, by skill: those of the missing skills, then
    those of the skills below their level; no skill twice. *)
Lemma analysis_log_skills (O R : dict Z) results1 results2 :
  let g := classify_all O R in
  length results1 = length (missing_skills g) →
  length results2 = length (below_level_skills g) →
  let new := logged (λ _, 0) (missing_skills g) results1
             ++ logged current_level (below_level_skills g) results2 in
  call_skill <$> new
  = dict_keys (missing_skills g) ++ dict_keys (below_level_skills g) ∧
  NoDup (call_skill <$> new).
Proof.
  intros g Hlen1 Hlen2 new.
  destruct (logged_requests (λ _, 0) _ _ Hlen1) as (_ & _ & Hs1).
  destruct (logged_requests current_level _ _ Hlen2) as (_ & _ & Hs2).
  assert (call_skill <$> new
          = dict_keys (missing_skills g) ++ dict_keys (below_level_skills g)) as Hnew.
  { unfold new. by rewrite fmap_app, Hs1, Hs2. }
  split; [done|]. rewrite Hnew.
  destruct (classify_all_wf O R) as (Hmi & _ & Hbe).
  apply NoDup_app. split_and!; [done | | done].
  intros s [e1 H1]%elem_of_keyset%elem_of_keyset_entry
           [e2 H2]%elem_of_keyset%elem_of_keyset_entry.
  apply classify_all_missing in H1 as (HO1 & _).
  apply classify_all_below in H2 as (HO2 & _). congruence.
Qed.

Context `{!Decoded}.

(** The tips loop: it makes the calls asked for, in order, until the
    display of a reply raises. *)
Lemma tips_for_matching_exact button (items : dict GapEntry) (st : State) :
  ∃ r st1 tips,
    tips_for_matching button items st = (r, st1) ∧
    calls st1 = calls st ++ tips ∧
    learning_path_requests tips = [] ∧
    tips_requests tips `prefix_of` pressed_requests button items ∧
    (r = inr tt → tips_requests tips = pressed_requests button items) ∧
    (r = inr tt ↔
     ∀ s c result, TipsCall s c result ∈ tips → show_tips result = inr tt).
Proof.
  unfold pressed_requests.
  revert st. induction items as [|[skill data] items IH]; intros st; simpl.
  - exists (inr tt), st, []. rewrite app_nil_r. split_and!; try done.
    split; [|done]. intros _ s c result Hin. by apply elem_of_nil in Hin.
  - unfold mbind at 1, M_bind.
    destruct (decide (button ("tips_" +:+ skill) = true)) as [Hbutton|Hbutton].
    + rewrite filter_cons_True by done. rewrite Hbutton. csimpl.
      destruct (get_skill_improvement_tips_returns skill (current_level data) st)
        as (result & w & Hcall).
      unfold mbind at 1, M_bind. rewrite Hcall. unfold lift.
      destruct (show_tips result) as [e|[]] eqn:Hshow.
      * exists (inl e), {| world := w;
                           calls := calls st ++ [TipsCall skill (current_level data) result] |},
               [TipsCall skill (current_level data) result].
        split_and!; try done.
        -- apply prefix_cons, prefix_nil.
        -- split; [done|]. intros Hall.
           rewrite (Hall skill (current_level data) result) in Hshow by left. done.
      * edestruct IH as (r & st1 & tips & Hrun & Hcalls & Hnone & Hprefix & Hall & Hiff).
        rewrite Hrun.
        exists r, st1, (TipsCall skill (current_level data) result :: tips).
        split_and!; [done | | done | | |].
        -- rewrite Hcalls. simpl. by rewrite <- app_assoc.
        -- unfold tips_requests in *. csimpl. by apply prefix_cons.
        -- intros Hr. unfold tips_requests in *. csimpl. by rewrite (Hall Hr).
        -- rewrite Hiff. split.
           ++ intros Htips s c res [[= -> -> ->]|Hin]%elem_of_cons; [done | eauto].
           ++ intros Htips s c res Hin. apply (Htips s c res). by right.
    + rewrite filter_cons_False by done. apply not_true_is_false in Hbutton.
      rewrite Hbutton. simpl. apply IH.
Qed.

(** The upskilling page, past its first check. *)
Lemma show_upskilling_paths_spec (a : Analysis) button (st : State) :
  ∃ r st1 tips,
    show_upskilling_paths (Some a) button st = (r, st1) ∧
    calls st1 = calls st ++ tips ∧
    learning_path_requests tips = [] ∧
    match learning_paths a with
    | [] => r = inr tt ∧ tips = []
    | _ :: _ =>
        match show_stored_paths a with
        | inl e => r = inl e ∧ tips = []
        | inr _ =>
            tips_requests tips
              `prefix_of` pressed_requests button (matching_skills (gap_analysis a)) ∧
            (r = inr tt →
             tips_requests tips
             = pressed_requests button (matching_skills (gap_analysis a))) ∧
            (r = inr tt ↔
             ∀ s c result, TipsCall s c result ∈ tips → show_tips result = inr tt)
        end
    end.
Proof.
  unfold show_upskilling_paths. destruct (learning_paths a) eqn:Hpaths.
  - exists (inr tt), st, []. by rewrite app_nil_r.
  - unfold mbind at 1, M_bind, lift.
    destruct (show_stored_paths a) as [e|u].
    + exists (inl e), st, []. by rewrite app_nil_r.
    + destruct (tips_for_matching_exact button (matching_skills (gap_analysis a)) st)
        as (r & st1 & tips & Hrun & Hcalls & Hnone & Hrest).
      by exists r, st1, tips.
Qed.
End call_log.

Section analysis_log.
Context `{PyStr} `{Gemini}.

Lemma logged_elem current_of (items : dict GapEntry) (results : list (Result Json)) c :
  c ∈ logged current_of items results →
  ∃ s e result,
    c = LearningPathCall s (current_of e) (required_level e) result ∧ (s, e) ∈ items.
Proof.
  unfold logged. intros (i & [s e] & result & -> & Hitem & _)%elem_of_lookup_zip_with.
  exists s, e, result. split; [done|]. by eapply list_elem_of_lookup_2.
Qed.

(** What one analysis returns and logs, for any outcome of its calls. *)
Lemma analyze_skill_gap_log (O R : dict Z) (st : State) :
  let g := classify_all O R in
  ∃ a st' new,
    analyze_skill_gap O R st = (inr a, st') ∧ calls st' = calls st ++ new ∧
    gap_analysis a = g ∧
    learning_path_requests new
    = ((λ '(s, e), (s, 0, required_level e)) <$> missing_skills g)
      ++ ((λ '(s, e), (s, current_level e, required_level e)) <$> below_level_skills g) ∧
    tips_requests new = [] ∧
    call_skill <$> new = dict_keys (missing_skills g) ++ dict_keys (below_level_skills g) ∧
    NoDup (call_skill <$> new) ∧
    (∀ c, c ∈ new → ∃ s current target result,
            c = LearningPathCall s current target result ∧
            s ∈ keyset (missing_skills g) ∪ keyset (below_level_skills g)) ∧
    (∀ s, s ∈ dict_keys (learning_paths a) ↔
          ∃ current target d, LearningPathCall s current target (Success d) ∈ new).
Proof.
  intros g.
  destruct (analyze_skill_gap_spec O R st) as (results1 & results2 & w & Hlen1 & Hlen2 & Hrun).
  fold g in Hlen1, Hlen2, Hrun.
  destruct (analysis_log_skills O R results1 results2 Hlen1 Hlen2) as [Hskills Hnd].
  fold g in Hskills, Hnd.
  destruct (logged_requests (λ _, 0) _ _ Hlen1) as (Hreq1 & Htips1 & _).
  destruct (logged_requests current_level _ _ Hlen2) as (Hreq2 & Htips2 & _).
  eexists _, _, _. split; [exact Hrun|]. simpl.
  split_and!; try done.
  - unfold learning_path_requests in *. by rewrite omap_app, Hreq1, Hreq2.
  - unfold tips_requests in *. by rewrite omap_app, Htips1, Htips2.
  - intros c [Hc|Hc]%elem_of_app; apply logged_elem in Hc as (s & e & result & -> & Hin);
      eexists _, _, _, _; (split; [done|]); apply elem_of_union; [left | right];
      apply elem_of_keyset_entry; eauto.
  - intros s. rewrite (apply_results_keys current_level), (apply_results_keys (λ _, 0)).
    split.
    + intros [[Hnil|(c & t & d & Hin)]|(c & t & d & Hin)].
      * by apply elem_of_nil in Hnil.
      * exists c, t, d. apply elem_of_app. by left.
      * exists c, t, d. apply elem_of_app. by right.
    + intros (c & t & d & [Hin|Hin]%elem_of_app); [left; right | right]; eauto.
Qed.
End analysis_log.

(** C5. [generate_learning_path] returns a tagged result and raises
    nothing; the analysis returns whatever the outcome of its calls; its
    partitions are those of the classification, so the entry of a skill
    whose call failed is still in its partition; such a skill has no
    learning path, the learning paths being exactly those of the skills
    whose call succeeded; and the failure is on record in the returned
    analysis: the skills of the two partitions that have no learning path
    are exactly the skills whose call failed. *)
Theorem C5_soft_failures `{PyStr} `{Gemini} (O R : dict Z) (st : State) :
  (∀ skill current target st0, ∃ result st1,
     generate_learning_path skill current target st0 = (inr result, st1)) ∧
  ∃ a st' new,
    analyze_skill_gap O R st = (inr a, st') ∧ calls st' = calls st ++ new ∧
    gap_analysis a = classify_all O R ∧
    (∀ s, s ∈ keyset (missing_skills (gap_analysis a))
              ∪ keyset (below_level_skills (gap_analysis a)) →
          ∃ current target result, LearningPathCall s current target result ∈ new) ∧
    (∀ s current target error,
       LearningPathCall s current target (Failure error) ∈ new →
       s ∈ keyset (missing_skills (gap_analysis a))
           ∪ keyset (below_level_skills (gap_analysis a)) ∧
       s ∉ dict_keys (learning_paths a)) ∧
    (∀ s, s ∈ dict_keys (learning_paths a) ↔
          ∃ current target d, LearningPathCall s current target (Success d) ∈ new) ∧
    (∀ s, s ∈ failed_skills a ↔
          ∃ current target error,
            LearningPathCall s current target (Failure error) ∈ new).
Proof.
  split.
  { intros skill current target st0.
    destruct (generate_learning_path_returns skill current target st0) as (r & w & Hcall).
    eauto. }
  destruct (analyze_skill_gap_log O R st)
    as (a & st' & new & Hrun & Hcalls & Hgap & _ & _ & Hskills & Hnd & Hnew & Hpaths).
  assert (∀ s, s ∈ dict_keys (missing_skills (gap_analysis a))
                   ++ dict_keys (below_level_skills (gap_analysis a)) →
            ∃ current target result, LearningPathCall s current target result ∈ new)
    as Hcalled.
  { intros s Hs. rewrite Hgap, <- Hskills in Hs.
    apply list_elem_of_fmap in Hs as ([s' c t result|] & Hc & Hin).
    - simpl in Hc. subst s'. eauto.
    - destruct (Hnew _ Hin) as (? & ? & ? & ? & ? & _). done. }
  assert (∀ s current target error,
            LearningPathCall s current target (Failure error) ∈ new →
            s ∈ keyset (missing_skills (gap_analysis a))
                ∪ keyset (below_level_skills (gap_analysis a)) ∧
            s ∉ dict_keys (learning_paths a)) as Hfailed.
  { intros s current target error Hfail. split.
    - destruct (Hnew _ Hfail) as (s' & c & t & r & [= -> _ _ _] & Hs). by rewrite Hgap.
    - intros (c & t & d & Hok)%Hpaths.
      pose proof (NoDup_fmap_unique call_skill new _ _ Hnd Hfail Hok eq_refl). done. }
  exists a, st', new. split_and!; try done.
  - intros s Hs. apply Hcalled.
    apply elem_of_union in Hs. rewrite !elem_of_keyset in Hs. by apply elem_of_app.
  - intros s. unfold failed_skills. rewrite list_elem_of_filter. split.
    + intros [Hnone Hs]. destruct (Hcalled s Hs) as (c & t & [d|error] & Hin).
      * destruct Hnone. apply Hpaths. eauto.
      * eauto.
    + intros (c & t & error & Hfail). destruct (Hfailed _ _ _ _ Hfail) as [Hs Hnone].
      split; [done|].
      apply elem_of_union in Hs. rewrite !elem_of_keyset in Hs. by apply elem_of_app.
Qed.

(** C6. Against a dictionary [R], one analysis calls
    [generate_learning_path] for the missing skills of [R], in the order
    of [R], then for its skills below their level, in the order of [R],
    and makes no other collaborator call: once for each of these skills
    and never for a matching skill. The tips call is made by the
    upskilling page only, for a matching skill whose button was pressed,
    with its current level; the page makes no learning-path call, whether
    it returns or raises. *)
Theorem C6_call_order `{PyStr} `{Gemini} `{!Decoded} (O R : dict Z) (st : State) :
  dict_wf R →
  ∃ a st' new,
    analyze_skill_gap O R st = (inr a, st') ∧ calls st' = calls st ++ new ∧
    let g := gap_analysis a in
    missing_skills g = omap (missing_item O) R ∧
    matching_skills g = omap (matching_item O) R ∧
    below_level_skills g = omap (below_item O) R ∧
    learning_path_requests new
    = ((λ '(s, e), (s, 0, required_level e)) <$> missing_skills g)
      ++ ((λ '(s, e), (s, current_level e, required_level e)) <$> below_level_skills g) ∧
    tips_requests new = [] ∧
    (∀ s, s ∈ keyset (missing_skills g) ∪ keyset (below_level_skills g) →
          call_count s new = 1%nat) ∧
    (∀ s, s ∈ keyset (matching_skills g) → call_count s new = 0%nat) ∧
    (∀ button st0, ∃ r st1 tips,
       show_upskilling_paths (Some a) button st0 = (r, st1) ∧
       calls st1 = calls st0 ++ tips ∧
       learning_path_requests tips = [] ∧
       ∀ s current, (s, current) ∈ tips_requests tips →
         button ("tips_" +:+ s) = true ∧
         ∃ e, (s, e) ∈ matching_skills g ∧ current_level e = current).
Proof.
  intros Hwf.
  destruct (analyze_skill_gap_log O R st)
    as (a & st' & new & Hrun & Hcalls & Hgap & Hreq & Htips & Hskills & Hnd & _ & _).
  exists a, st', new. cbv zeta. rewrite Hgap.
  destruct (classify_all_disjoint O R Hwf) as (Hd1 & Hd2 & _).
  destruct (classify_all_in_order O R Hwf) as (Hmi & Hma & Hbe).
  split_and!; try done.
  - intros s Hs. rewrite call_count_skills, count_NoDup by done.
    rewrite bool_decide_eq_true_2; [done|].
    rewrite Hskills, elem_of_app, <- !elem_of_keyset. by apply elem_of_union.
  - intros s Hs. rewrite call_count_skills, count_NoDup by done.
    rewrite bool_decide_eq_false_2; [done|].
    rewrite Hskills, elem_of_app, <- !elem_of_keyset.
    intros [Hmiss|Hbelow]; [by apply (Hd2 s) | by apply (Hd1 s)].
  - intros button st0.
    destruct (show_upskilling_paths_spec a button st0)
      as (r & st1 & tips & Hpage & Hlog & Hnone & Hrest).
    exists r, st1, tips. split_and!; try done.
    intros s current Hin.
    destruct (learning_paths a); [destruct Hrest as [_ ->]; by apply elem_of_nil in Hin|].
    destruct (show_stored_paths a);
      [destruct Hrest as [_ ->]; by apply elem_of_nil in Hin|].
    destruct Hrest as ([rest Hprefix] & _).
    assert ((s, current) ∈ pressed_requests button (matching_skills (gap_analysis a)))
      as Hpressed by (rewrite Hprefix; apply elem_of_app; by left).
    unfold pressed_requests in Hpressed.
    apply list_elem_of_fmap in Hpressed
      as ([s' e] & [= -> ->] & [Hb He]%list_elem_of_filter).
    split; [done|]. exists e. by rewrite <- Hgap.
Qed.

(** * Further properties *)

(** ** The skill map of the parser *)

Lemma str_app_assoc (a b c : string) : (a +:+ b) +:+ c = a +:+ b +:+ c.
Proof.
  induction a as [|x a IH]; [done|].
  change (String x ((a +:+ b) +:+ c) = String x (a +:+ b +:+ c)). by rewrite IH.
Qed.

Lemma occurs_in_trans (a b c : string) : occurs_in a b → occurs_in b c → occurs_in a c.
Proof.
  intros (b1 & b2 & ->) (c1 & c2 & ->).
  exists (c1 +:+ b1), (b2 +:+ c2). by rewrite !str_app_assoc.
Qed.

Section skill_map.
Context `{PyStr} `{Files} {Meta : Type}.
Implicit Types (self : Parser Meta) (k skill text : string).

Lemma skill_levels_fold_get self text skills (acc : dict Z) k :
  dict_get (foldl (λ skill_levels skill,
                     if skill_found self skill
                     then dict_set skill_levels skill (_estimate_proficiency skill text)
                     else skill_levels) acc skills) k
  = if bool_decide (k ∈ skills) && skill_found self k
    then Some (_estimate_proficiency k text) else dict_get acc k.
Proof.
  revert acc. induction skills as [|skill skills IH]; intros acc; simpl.
  - done.
  - rewrite IH. destruct (decide (k = skill)) as [->|Hne].
    + rewrite (bool_decide_eq_true_2 (skill ∈ skill :: skills)) by left.
      destruct (skill_found self skill) eqn:Hfound; simpl.
      * rewrite andb_true_r, dict_get_set, decide_True by done.
        by destruct (bool_decide (skill ∈ skills)).
      * by rewrite andb_false_r.
    + rewrite (bool_decide_ext (k ∈ skill :: skills) (k ∈ skills)).
      2: { rewrite elem_of_cons. split; [intros [?|?]; done | by right]. }
      destruct (bool_decide (k ∈ skills) && skill_found self k); [done|].
      destruct (skill_found self skill); [|done].
      by rewrite dict_get_set, decide_False.
Qed.

Lemma skill_levels_of_get self text skills k :
  dict_get (skill_levels_of self text skills) k
  = if bool_decide (k ∈ skills) && skill_found self k
    then Some (_estimate_proficiency k text) else None.
Proof. unfold skill_levels_of. by rewrite skill_levels_fold_get. Qed.

Lemma skill_levels_of_wf self text skills : dict_wf (skill_levels_of self text skills).
Proof.
  unfold skill_levels_of.
  assert (dict_wf (@nil (string * Z))) as Hnil by apply NoDup_nil_2.
  revert Hnil. generalize (@nil (string * Z)).
  induction skills as [|skill skills IH]; intros acc Hacc; simpl; [done|].
  apply IH. destruct (skill_found self skill); [by apply dict_set_wf | done].
Qed.

(** The ontology scan keeps what it has and adds every key that occurs. *)
Lemma ontology_scan_mono self text (skills : gset string) k :
  k ∈ skills → k ∈ ontology_scan self text skills.
Proof.
  unfold ontology_scan. revert skills.
  induction (ontology_skills self) as [|[category skills_data] l IH];
    intros skills Hk; simpl; [done|].
  apply IH. clear IH. revert skills Hk.
  induction (dict_keys skills_data) as [|skill keys IHk]; intros skills Hk; simpl;
    [done|].
  apply IHk. destruct (str_in (lower skill) (lower text)); [|done].
  apply elem_of_union. by right.
Qed.

Lemma ontology_scan_complete self text (skills : gset string) k :
  ontology_key self k → str_in (lower k) (lower text) = true →
  k ∈ ontology_scan self text skills.
Proof.
  intros (category & skills_data & Hin & Hk) Hocc.
  unfold ontology_scan. revert skills.
  induction (ontology_skills self) as [|[c d] l IH]; intros skills; simpl.
  - by apply elem_of_nil in Hin.
  - apply elem_of_cons in Hin as [[= <- <-]|Hin].
    + assert (∀ acc : gset string, k ∈ acc →
                k ∈ foldl (λ skills '(_, skills_data),
                     foldl (λ skills skill,
                              if str_in (lower skill) (lower text)
                              then {[skill]} ∪ skills else skills)
                           skills (dict_keys skills_data)) acc l) as Hkeep.
      { clear. intros acc Hacc. revert acc Hacc.
        induction l as [|[c d] l IH]; intros acc Hacc; simpl; [done|].
        apply IH. clear IH. revert acc Hacc.
        induction (dict_keys d) as [|skill keys IHk]; intros acc Hacc; simpl; [done|].
        apply IHk. destruct (str_in (lower skill) (lower text)); [|done].
        apply elem_of_union. by right. }
      apply Hkeep. clear Hkeep IH. revert skills.
      induction (dict_keys skills_data) as [|skill keys IHk]; intros skills; simpl.
      * by apply elem_of_nil in Hk.
      * apply elem_of_cons in Hk as [<-|Hk]; [|by apply IHk].
        rewrite Hocc. clear IHk.
        assert (k ∈ ({[k]} ∪ skills : gset string)) as Hnow
          by (apply elem_of_union; left; by apply elem_of_singleton).
        revert Hnow. generalize ({[k]} ∪ skills : gset string).
        induction keys as [|skill keys IHk]; intros acc Hacc; simpl; [done|].
        apply IHk. destruct (str_in (lower skill) (lower text)); [|done].
        apply elem_of_union. by right.
    + by apply IH.
Qed.

Lemma children_elem (doc : list Token) h child : child ∈ children doc h → child ∈ doc.
Proof.
  unfold children. intros ([i t] & Hin & Hsome)%list_elem_of_omap.
  apply elem_of_lookup_imap in Hin as (j & t' & [= -> ->] & Hlookup).
  case_bool_decide; [|done]. injection Hsome as <-.
  by eapply list_elem_of_lookup_2.
Qed.

(** What the pattern scan adds to the set. *)
Lemma pattern_scan_elem (doc : list Token) (skills : gset string) k :
  k ∈ pattern_scan doc skills ↔ k ∈ skills ∨ pattern_candidate doc k.
Proof.
  unfold pattern_scan, pattern_candidate.
  assert (∀ (cs : list Token) (acc : gset string),
            k ∈ foldl (λ skills child,
                         if bool_decide (dep_ child ∈ ["dobj"; "attr"; "conj"])
                         then {[text child]} ∪ skills else skills) acc cs ↔
            k ∈ acc ∨ ∃ child, child ∈ cs ∧
                        dep_ child ∈ ["dobj"; "attr"; "conj"] ∧ text child = k)
    as Hinner.
  { induction cs as [|c cs IH]; intros acc; simpl.
    - split; [by left|]. intros [?|(child & Hc & _)]; [done|].
      by apply elem_of_nil in Hc.
    - rewrite IH. split.
      + intros [Hacc|(child & Hc & Hdep & Htext)].
        * case_bool_decide as Hdep; [|by left].
          apply elem_of_union in Hacc as [->%elem_of_singleton|?]; [|by left].
          right. exists c. split_and!; [left | done | done].
        * right. exists child. split_and!; [by right | done | done].
      + intros [Hacc|(child & Hc & Hdep & Htext)].
        * left. case_bool_decide; [|done]. apply elem_of_union. by right.
        * apply elem_of_cons in Hc as [->|Hc].
          -- left. rewrite bool_decide_eq_true_2 by done.
             apply elem_of_union. left. by apply elem_of_singleton.
          -- right. eauto. }
  assert (∀ (l : list Token) (acc : gset string),
            k ∈ foldl (λ skills token,
               match doc !! head token with
               | Some head_token =>
                   if bool_decide (lower (text token) ∈ triggers)
                      && negb (bool_decide (lower (text head_token) = "with"))
                   then foldl (λ skills child,
                                 if bool_decide (dep_ child ∈ ["dobj"; "attr"; "conj"])
                                 then {[text child]} ∪ skills else skills)
                              skills (children doc (head token))
                   else skills
               | None => skills
               end) acc l ↔
            k ∈ acc ∨ ∃ token head_token child,
              token ∈ l ∧ doc !! head token = Some head_token ∧
              lower (text token) ∈ triggers ∧ lower (text head_token) ≠ "with" ∧
              child ∈ children doc (head token) ∧
              dep_ child ∈ ["dobj"; "attr"; "conj"] ∧ text child = k)
    as Houter; [|by apply Houter].
  induction l as [|token l IH]; intros acc; simpl.
  - split; [by left|]. intros [?|(t & h & c & Ht & _)]; [done|].
    by apply elem_of_nil in Ht.
  - rewrite IH. clear IH. split.
    + intros [Hacc|(t & h & c & Ht & Hrest)].
      * destruct (doc !! head token) as [head_token|] eqn:Hhead; [|by left].
        destruct (bool_decide (lower (text token) ∈ triggers)) eqn:Htrig; [|by left].
        destruct (bool_decide (lower (text head_token) = "with")) eqn:Hwith; [by left|].
        simpl in Hacc. apply Hinner in Hacc as [?|(child & Hc & Hdep & Htext)]; [by left|].
        apply bool_decide_eq_true in Htrig. apply bool_decide_eq_false in Hwith.
        right. exists token, head_token, child. split_and!; try done. left.
      * right. exists t, h, c. split; [by right | done].
    + intros [Hacc|(t & h & c & Ht & Hhead & Htrig & Hwith & Hc & Hdep & Htext)].
      * left. destruct (doc !! head token) as [head_token|]; [|done].
        destruct (_ && _); [|done]. apply Hinner. by left.
      * apply elem_of_cons in Ht as [->|Ht].
        -- left. rewrite Hhead.
           rewrite (bool_decide_eq_true_2 _ Htrig), (bool_decide_eq_false_2 _ Hwith).
           simpl. apply Hinner. right. eauto.
        -- right. exists t, h, c. done.
Qed.

(** The candidates of the extraction. *)
Lemma _extract_skills_with_nlp_elem self text k :
  k ∈ _extract_skills_with_nlp self text ↔
  k ∈ ontology_scan self text ∅ ∨ pattern_candidate (nlp self (lower text)) k.
Proof.
  unfold _extract_skills_with_nlp. rewrite elem_of_elements. apply pattern_scan_elem.
Qed.
End skill_map.

(** The lookups of the map built from the candidates of a text. *)
Lemma skill_levels_of_lookup `{PyStr} {Meta} (self : Parser Meta) (text k : string) (v : Z) :
  dict_get (skill_levels_of self text (_extract_skills_with_nlp self text)) k = Some v ↔
  ontology_key self k ∧
  (occurs_in (lower k) (lower text) ∨ pattern_candidate (nlp self (lower text)) k) ∧
  v = _estimate_proficiency k text.
Proof.
  rewrite skill_levels_of_get. split.
  - destruct (bool_decide _) eqn:Hcand; [|done].
    destruct (skill_found self k) eqn:Hkey; [|done]. simpl. intros [= <-].
    apply bool_decide_eq_true, _extract_skills_with_nlp_elem in Hcand.
    apply skill_found_spec in Hkey. split_and!; [done | | done].
    destruct Hcand as [[Hnil|[_ Hocc]]%ontology_scan_elem|?]; [|left|by right].
    + by apply not_elem_of_empty in Hnil.
    + by apply str_in_spec.
  - intros (Hkey & Hcand & ->).
    rewrite bool_decide_eq_true_2, (proj2 (skill_found_spec self k) Hkey); [done|].
    apply _extract_skills_with_nlp_elem. destruct Hcand as [Hocc|?]; [left | by right].
    apply ontology_scan_complete; [done | by apply str_in_spec].
Qed.

(** X1. When the text of the document is read, the parser returns a
    dictionary (no key twice) in which a skill [k] has level [v] exactly
    when [k] is a skill key of the ontology, the lowercased key occurs in
    the lowercased text or [k] is proposed by the pattern scan, and [v] is
    the estimate of [k] on the whole text. *)
Theorem parse_resume_lookup `{PyStr} `{Files} {Meta} (self : Parser Meta)
    (file_path text : string) :
  extract_text file_path = inr text →
  ∃ skill_levels, parse_resume self file_path = inr skill_levels ∧
    dict_wf skill_levels ∧
    ∀ k v, dict_get skill_levels k = Some v ↔
      ontology_key self k ∧
      (occurs_in (lower k) (lower text) ∨
       pattern_candidate (nlp self (lower text)) k) ∧
      v = _estimate_proficiency k text.
Proof.
  intros Htext. eexists. split; [by apply parse_resume_returns|].
  split; [apply skill_levels_of_wf|].
  intros k v. apply skill_levels_of_lookup.
Qed.

(** X2. Matching is by substring of the names: when the lowercased name
    of an ontology skill [k1] occurs inside the lowercased name of a skill
    [k2] that occurs in the text, the returned map has [k1] too. *)
Theorem parse_resume_name_inside_name `{PyStr} `{Files} {Meta} (self : Parser Meta)
    (file_path text k1 k2 : string) :
  extract_text file_path = inr text →
  ontology_key self k1 →
  occurs_in (lower k1) (lower k2) → occurs_in (lower k2) (lower text) →
  ∃ skill_levels, parse_resume self file_path = inr skill_levels ∧
    dict_get skill_levels k1 = Some (_estimate_proficiency k1 text).
Proof.
  intros Htext Hkey H12 H2.
  eexists. split; [by apply parse_resume_returns|].
  apply skill_levels_of_lookup. split_and!; [done | | done].
  left. by eapply occurs_in_trans.
Qed.

(** X3. If the tokens spaCy returns for the lowercased text are pieces of
    that text which lowercasing leaves unchanged, the pattern scan changes
    nothing: every lookup in the returned map gives what the map built
    from the ontology scan alone gives. *)
Theorem parse_resume_pattern_scan_redundant `{PyStr} `{Files} {Meta}
    (self : Parser Meta) (file_path text : string) :
  extract_text file_path = inr text →
  (∀ token, token ∈ nlp self (lower text) →
     occurs_in (ResumeParser.text token) (lower text) ∧
     lower (ResumeParser.text token) = ResumeParser.text token) →
  ∃ skill_levels, parse_resume self file_path = inr skill_levels ∧
    ∀ k, dict_get skill_levels k
         = dict_get (skill_levels_of self text (elements (ontology_scan self text ∅))) k.
Proof.
  intros Htext Htokens. eexists. split; [by apply parse_resume_returns|].
  intros k. rewrite !skill_levels_of_get.
  destruct (skill_found self k) eqn:Hkey; [|by rewrite !andb_false_r].
  rewrite !andb_true_r.
  rewrite (bool_decide_ext (k ∈ _extract_skills_with_nlp self text)
             (k ∈ elements (ontology_scan self text ∅))); [done|].
  rewrite _extract_skills_with_nlp_elem, elem_of_elements.
  split; [|by left]. intros [?|Hpattern]; [done|].
  destruct Hpattern as (token & head_token & child & _ & _ & _ & _ & Hchild & _ & <-).
  apply children_elem, Htokens in Hchild as [Hocc Hlow].
  apply ontology_scan_complete; [by apply skill_found_spec|].
  apply str_in_spec. by rewrite Hlow.
Qed.

(** X4. When the spaCy pipeline loads, at once or after the download
    that follows a missing model, and the ontology file is absent or has
    no [skills] entry, the parser is built with that pipeline and returns
    the empty skill map for every document whose text is read, whatever
    the text. *)
Theorem parse_resume_without_ontology `{PyStr} `{Files} {Meta}
    (spacy : Spacy) (pipeline : string → list Token)
    (ontology_file : option (string + dict (dict (dict Meta))))
    (file_path text : string) :
  spacy_load spacy = Loaded pipeline ∨
  (∃ msg, spacy_load spacy = ModelNotFound msg ∧ spacy_download spacy = inr tt ∧
          spacy_load_again spacy = Loaded pipeline) →
  ontology_file = None ∨
  (∃ ontology, ontology_file = Some (inr ontology) ∧ "skills" ∉ dict_keys ontology) →
  extract_text file_path = inr text →
  ∃ self, __init__ spacy ontology_file = inr self ∧ nlp self = pipeline ∧
          parse_resume self file_path = inr [].
Proof.
  intros Hload Hfile Htext.
  assert (load_pipeline spacy = inr pipeline) as Hpipeline.
  { unfold load_pipeline.
    destruct Hload as [->|(msg & -> & -> & ->)]; done. }
  assert (∃ self : Parser Meta, __init__ spacy ontology_file = inr self ∧
                 nlp self = pipeline ∧ ontology_skills self = [])
    as (self & Hinit & Hnlp & Hnone).
  { unfold __init__. rewrite Hpipeline.
    destruct Hfile as [->|(ontology & -> & Hkey%dict_get_None)].
    - by eexists.
    - eexists. split_and!; [done | done |].
      unfold ontology_skills, dict_get_default. simpl. by rewrite Hkey. }
  exists self. split_and!; [done | done |].
  rewrite (parse_resume_returns self file_path text Htext).
  unfold skill_levels_of.
  assert (∀ skill, skill_found self skill = false) as Hfound
    by (intros; unfold skill_found; by rewrite Hnone).
  generalize (@nil (string * Z)).
  induction (_extract_skills_with_nlp self text) as [|skill skills IH]; intros acc; simpl.
  - done.
  - rewrite Hfound. apply IH.
Qed.

(** ** The estimator and the readers *)

Section estimator_more.
Context `{PyStr}.

Lemma tier_hit_text level skill text1 text2 :
  occurs_in (lower text1) (lower text2) →
  tier_hit level skill text1 → tier_hit level skill text2.
Proof.
  intros Hocc (b & a & Hin & Hphrase). exists b, a. split; [done|].
  by eapply occurs_in_trans.
Qed.

Lemma _estimate_proficiency_at_least level skill text :
  tier_hit level skill text → level ≤ _estimate_proficiency skill text.
Proof.
  intros Hhit. pose proof (tier_hit_level _ _ _ Hhit) as Hlevel.
  pose proof (_estimate_proficiency_cases skill text) as Hcases. cbv zeta in Hcases.
  destruct Hcases as [ (T5 & ->) | [ (N5 & T4 & ->) | [ (N5 & N4 & T3 & ->) |
    [ (N5 & N4 & N3 & T2 & ->) | (N5 & N4 & N3 & N2 & ->) ] ] ] ];
    destruct Hlevel as [-> | [-> | [-> | ->] ] ]; done.
Qed.
End estimator_more.

(** X5. More text never lowers an estimate: if the lowercased text of one
    document occurs in the lowercased text of another, every skill gets in
    the second at least the level it gets in the first. *)
Theorem _estimate_proficiency_monotone `{PyStr} (skill text1 text2 : string) :
  occurs_in (lower text1) (lower text2) →
  _estimate_proficiency skill text1 ≤ _estimate_proficiency skill text2.
Proof.
  intros Hocc.
  pose proof (_estimate_proficiency_cases skill text1) as Hcases. cbv zeta in Hcases.
  destruct Hcases as [ (T & ->) | [ (_ & T & ->) | [ (_ & _ & T & ->) |
    [ (_ & _ & _ & T & ->) | (_ & _ & _ & _ & ->) ] ] ] ].
  1-4: by apply _estimate_proficiency_at_least, (tier_hit_text _ _ text1).
  apply _estimate_proficiency_range.
Qed.

(** X6. The expert phrases end with the skill name, so a skill whose
    lowercased name begins the lowercased name of another inherits its
    expert level: if the longer name is estimated at 5, so is the
    shorter. *)
Theorem _estimate_proficiency_prefix_expert `{PyStr} (k1 k2 rest text : string) :
  lower k2 = lower k1 +:+ rest →
  _estimate_proficiency k2 text = 5 →
  _estimate_proficiency k1 text = 5.
Proof.
  intros Hprefix Hfive.
  assert (tier_hit 5 k2 text) as (b & a & Hin & Hocc).
  { pose proof (_estimate_proficiency_cases k2 text) as Hcases. cbv zeta in Hcases.
    rewrite Hfive in Hcases.
    destruct Hcases as [ (T5 & _) | [ (_ & _ & ?) | [ (_ & _ & _ & ?) |
      [ (_ & _ & _ & _ & ?) | (_ & _ & _ & _ & ?) ] ] ] ]; done. }
  assert (tier_hit 5 k1 text) as Hhit.
  { exists b, a. split; [done|].
    eapply occurs_in_trans; [|exact Hocc].
    assert (a = "") as ->.
    { unfold tier_templates in Hin. simpl in Hin.
      repeat (apply elem_of_cons in Hin as [[= _ ->]|Hin]; [done|]).
      by apply elem_of_nil in Hin. }
    exists "", rest. rewrite Hprefix, !str_app_empty_r. simpl.
    by rewrite str_app_assoc. }
  apply _estimate_proficiency_at_least in Hhit.
  pose proof (_estimate_proficiency_range k1 text). lia.
Qed.

Section readers.
Context `{PyStr} `{Files}.

Lemma pdf_concat_good (good : list string) (text : string) :
  pdf_concat (inr <$> good) text = inr (text +:+ pdf_text good).
Proof.
  revert text. induction good as [|page good IH]; intros text; csimpl.
  - by rewrite str_app_empty_r.
  - rewrite IH. by rewrite !str_app_assoc.
Qed.

Lemma pdf_concat_bad (good : list string) msg rest (text : string) :
  pdf_concat ((inr <$> good) ++ inl msg :: rest) text = inl (LibraryError msg).
Proof.
  revert text. induction good as [|page good IH]; intros text; csimpl; [done|].
  apply IH.
Qed.
End readers.

(** X7. For a path with the suffix [.pdf] in any letter case: when every
    page is extracted, the text is the pages in order, each followed by a
    newline; when a page fails, the parse of the document fails with the
    message of the first page that failed, whatever the other pages
    hold. *)
Theorem parse_resume_pdf_pages `{PyStr} `{Files} {Meta} (self : Parser Meta)
    (file_path : string) :
  lower (path_suffix file_path) = ".pdf" →
  (∀ good, pdf_pages file_path = inr (inr <$> good) →
     extract_text file_path = inr (pdf_text good)) ∧
  (∀ good msg rest, pdf_pages file_path = inr ((inr <$> good) ++ inl msg :: rest) →
     parse_resume self file_path = inl (ExtractionError file_path msg)).
Proof.
  intros Hsuffix. split.
  - intros good Hpages. unfold extract_text, extract_text_from_pdf.
    rewrite Hsuffix, decide_True, Hpages by done. apply pdf_concat_good.
  - intros good msg rest Hpages.
    unfold parse_resume, extract_text, extract_text_from_pdf.
    rewrite Hsuffix, decide_True, Hpages by done. by rewrite pdf_concat_bad.
Qed.

(** ** The partitions and the analysis page *)

(** X8. For a required map that is a dictionary, each partition lists its
    skills in the order of the required map: it is the list of the
    entries that the requirements, taken in order, give to it. *)
Theorem analyze_skill_gap_in_order `{PyStr} `{Gemini} (O R : dict Z) (st : State) :
  dict_wf R →
  ∃ a st', analyze_skill_gap O R st = (inr a, st') ∧
    missing_skills (gap_analysis a) = omap (missing_item O) R ∧
    matching_skills (gap_analysis a) = omap (matching_item O) R ∧
    below_level_skills (gap_analysis a) = omap (below_item O) R.
Proof.
  intros Hwf.
  destruct (analyze_skill_gap_spec O R st) as (results1 & results2 & w & _ & _ & Hrun).
  eexists _, _. split; [exact Hrun|]. simpl. by apply classify_all_in_order.
Qed.

(** X9. On the page of an analysis against a dictionary [R], the three
    metrics share the denominator [len(R)] and their numerators, the sizes
    of the three partitions, add up to it. *)
Theorem display_analysis_results_metrics `{PyStr} `{Gemini} (O R : dict Z) (st : State) :
  dict_wf R →
  ∃ a st', analyze_skill_gap O R st = (inr a, st') ∧
    let page := display_analysis_results a in
    (skills_matched page).2 = length R ∧
    (skills_below_level page).2 = length R ∧
    (skills_missing page).2 = length R ∧
    (skills_matched page).1 = length (matching_skills (gap_analysis a)) ∧
    (skills_below_level page).1 = length (below_level_skills (gap_analysis a)) ∧
    (skills_missing page).1 = length (missing_skills (gap_analysis a)) ∧
    ((skills_matched page).1 + (skills_below_level page).1
     + (skills_missing page).1)%nat = length R.
Proof.
  intros Hwf.
  destruct (analyze_skill_gap_spec O R st) as (results1 & results2 & w & _ & _ & Hrun).
  eexists _, _. split; [exact Hrun|]. cbv zeta. unfold display_analysis_results. simpl.
  destruct (classify_all_in_order O R Hwf) as (-> & -> & ->).
  pose proof (partition_lengths O R). split_and!; done.
Qed.

Lemma tab_rows {A B} (f : A → B) (l : list A) rows row :
  match l with [] => None | _ :: _ => Some (f <$> l) end = Some rows →
  row ∈ rows → ∃ x, x ∈ l ∧ row = f x.
Proof.
  intros Hrows Hrow. assert (rows = f <$> l) as -> by (destruct l; congruence).
  apply list_elem_of_fmap in Hrow as (x & -> & Hin). eauto.
Qed.

(** X10. On the page of any analysis: a tab shows the [st.info] line
    exactly when its partition is empty; every row of the table of skills
    to improve shows the observed level, and a gap that is the required
    level minus that level and is at least 1; every row of the table of
    matching skills shows an observed level that reaches the required
    one; every row of the table of missing skills is of a skill that the
    observed map does not have. *)
Theorem display_analysis_results_tables `{PyStr} `{Gemini} (O R : dict Z) (st : State) :
  ∃ a st', analyze_skill_gap O R st = (inr a, st') ∧
    let page := display_analysis_results a in
    (tab_matching page = None ↔ matching_skills (gap_analysis a) = []) ∧
    (tab_needs_improvement page = None ↔ below_level_skills (gap_analysis a) = []) ∧
    (tab_missing page = None ↔ missing_skills (gap_analysis a) = []) ∧
    (∀ rows row, tab_needs_improvement page = Some rows → row ∈ rows →
       dict_get O (Skill row) = Some (Your_Level row) ∧
       Gap row = Required_Level row - Your_Level row ∧ 1 ≤ Gap row) ∧
    (∀ rows row, tab_matching page = Some rows → row ∈ rows →
       dict_get O (matched_Skill row) = Some (matched_Your_Level row) ∧
       matched_Required_Level row ≤ matched_Your_Level row) ∧
    (∀ rows row, tab_missing page = Some rows → row ∈ rows →
       missing_Skill row ∉ dict_keys O).
Proof.
  destruct (analyze_skill_gap_spec O R st) as (results1 & results2 & w & _ & _ & Hrun).
  eexists _, _. split; [exact Hrun|]. cbv zeta. unfold display_analysis_results. simpl.
  split_and!.
  - by destruct (matching_skills _).
  - by destruct (below_level_skills _).
  - by destruct (missing_skills _).
  - intros rows row Hrows Hrow.
    destruct (tab_rows _ _ _ _ Hrows Hrow) as ([s e] & Hin & ->).
    apply classify_all_below in Hin as (HO & Hlt & _). simpl. split_and!; [done | done | lia].
  - intros rows row Hrows Hrow.
    destruct (tab_rows _ _ _ _ Hrows Hrow) as ([s e] & Hin & ->).
    apply classify_all_matching in Hin as (HO & Hge & _). simpl. split; [done | lia].
  - intros rows row Hrows Hrow.
    destruct (tab_rows _ _ _ _ Hrows Hrow) as ([s e] & Hin & ->).
    apply classify_all_missing in Hin as (HO & _). simpl. by apply dict_get_None.
Qed.

(** ** The analysis and its calls *)

Section analysis_more.
Context `{PyStr} `{Gemini}.

Lemma apply_results_origin current_of (learning_paths : dict Json)
    (items : dict GapEntry) (results : list (Result Json)) k d :
  dict_get (apply_results learning_paths items results) k = Some d →
  dict_get learning_paths k = Some d ∨
  ∃ c t, LearningPathCall k c t (Success d) ∈ logged current_of items results.
Proof.
  unfold logged. revert learning_paths results.
  induction items as [|[s e] items IH]; intros learning_paths [|r results]; simpl;
    try (by left).
  intros [Hget|(c & t & Hin)]%IH.
  - destruct r as [d0|error]; [|by left].
    rewrite dict_get_set in Hget. destruct (decide (k = s)) as [->|?]; [|by left].
    injection Hget as ->. right. eexists _, _. left.
  - right. exists c, t. by right.
Qed.

End analysis_more.

(** X11. Raising observed levels never worsens the analysis: if every
    skill of [O] is in [O'] at a level at least as high, then against the
    same dictionary [R] every skill matching under [O] matches under [O'],
    and every skill missing under [O'] is missing under [O]. *)
Theorem analyze_skill_gap_monotone `{PyStr} `{Gemini} (O O' R : dict Z) (st st0 : State) :
  dict_wf R →
  (∀ s level, dict_get O s = Some level →
     ∃ level', dict_get O' s = Some level' ∧ level ≤ level') →
  ∃ a st1 a' st1',
    analyze_skill_gap O R st = (inr a, st1) ∧
    analyze_skill_gap O' R st0 = (inr a', st1') ∧
    keyset (matching_skills (gap_analysis a))
      ⊆ keyset (matching_skills (gap_analysis a')) ∧
    keyset (missing_skills (gap_analysis a'))
      ⊆ keyset (missing_skills (gap_analysis a)).
Proof.
  intros Hwf Hup.
  destruct (analyze_skill_gap_spec O R st) as (? & ? & ? & _ & _ & Hrun).
  destruct (analyze_skill_gap_spec O' R st0) as (? & ? & ? & _ & _ & Hrun').
  eexists _, _, _, _. split; [exact Hrun|]. split; [exact Hrun'|]. simpl. split.
  - intros s [e He]%elem_of_keyset_entry.
    apply classify_all_matching in He as (HO & Hge & HR).
    destruct (Hup _ _ HO) as (level' & HO' & Hle).
    pose proof (classify_fold_get O' R
      {| missing_skills := []; matching_skills := []; below_level_skills := [] |}
      s _ Hwf HR) as Hget.
    cbv zeta in Hget. fold (classify_all O' R) in Hget.
    rewrite HO', bool_decide_eq_true_2 in Hget by lia.
    apply elem_of_keyset_entry. eexists. by apply dict_get_Some_elem.
  - intros s [e He]%elem_of_keyset_entry.
    apply classify_all_missing in He as (HO' & _ & HR).
    pose proof (classify_fold_get O R
      {| missing_skills := []; matching_skills := []; below_level_skills := [] |}
      s _ Hwf HR) as Hget.
    cbv zeta in Hget. fold (classify_all O R) in Hget.
    destruct (dict_get O s) as [level|] eqn:HO.
    + destruct (Hup _ _ HO) as (level' & ? & _). congruence.
    + apply elem_of_keyset_entry. eexists. by apply dict_get_Some_elem.
Qed.

(** X12. When every required skill is held at the required level or
    above (in particular when nothing is required), the analysis makes no
    collaborator call and leaves the state as it was, and its learning
    paths are empty; the upskilling page then stops at its first check:
    whatever buttons are pressed it makes no call, so no tips can be
    asked for the matching skills. *)
Theorem analyze_skill_gap_all_matched `{PyStr} `{Gemini} `{!Decoded}
    (O R : dict Z) (st : State) :
  (∀ s r, (s, r) ∈ R → ∃ level, dict_get O s = Some level ∧ level >= r) →
  ∃ a, analyze_skill_gap O R st = (inr a, st) ∧
    missing_skills (gap_analysis a) = [] ∧
    below_level_skills (gap_analysis a) = [] ∧
    learning_paths a = [] ∧
    ∀ button st0, show_upskilling_paths (Some a) button st0 = (inr tt, st0).
Proof.
  intros Hall.
  assert (missing_skills (classify_all O R) = []) as Hmi.
  { destruct (missing_skills (classify_all O R)) as [|[s e] l] eqn:Heq; [done|].
    assert ((s, e) ∈ missing_skills (classify_all O R)) as Hin by (rewrite Heq; left).
    apply classify_all_missing in Hin as (HO & _ & HR).
    destruct (Hall _ _ HR) as (level & ? & _). congruence. }
  assert (below_level_skills (classify_all O R) = []) as Hbe.
  { destruct (below_level_skills (classify_all O R)) as [|[s e] l] eqn:Heq; [done|].
    assert ((s, e) ∈ below_level_skills (classify_all O R)) as Hin by (rewrite Heq; left).
    apply classify_all_below in Hin as (HO & Hlt & HR).
    destruct (Hall _ _ HR) as (level & ? & ?). simplify_eq. lia. }
  eexists. split.
  { unfold analyze_skill_gap, paths_for_missing, paths_for_below.
    rewrite Hmi, Hbe. simpl. reflexivity. }
  simpl. done.
Qed.

(** X13. The learning path stored for a skill is the data of the
    successful call made for that skill in this analysis, and every
    successful call is stored. *)
Theorem analyze_skill_gap_learning_paths `{PyStr} `{Gemini} (O R : dict Z) (st : State) :
  ∃ a st' new,
    analyze_skill_gap O R st = (inr a, st') ∧ calls st' = calls st ++ new ∧
    ∀ s d, dict_get (learning_paths a) s = Some d ↔
           ∃ current target, LearningPathCall s current target (Success d) ∈ new.
Proof.
  destruct (analyze_skill_gap_spec O R st)
    as (results1 & results2 & w & Hlen1 & Hlen2 & Hrun).
  destruct (analysis_log_skills O R results1 results2 Hlen1 Hlen2) as [_ Hnd].
  eexists _, _, _. split; [exact Hrun|]. simpl. split; [done|].
  assert (∀ s d,
    dict_get (apply_results (apply_results [] (missing_skills (classify_all O R)) results1)
                (below_level_skills (classify_all O R)) results2) s = Some d →
    ∃ c t, LearningPathCall s c t (Success d)
           ∈ logged (λ _, 0) (missing_skills (classify_all O R)) results1
             ++ logged current_level (below_level_skills (classify_all O R)) results2)
    as Horigin.
  { intros s d [[Hnil|(c & t & Hin)]%(apply_results_origin (λ _, 0))
               |(c & t & Hin)]%(apply_results_origin current_level).
    - done.
    - exists c, t. apply elem_of_app. by left.
    - exists c, t. apply elem_of_app. by right. }
  intros s d. split; [apply Horigin|].
  intros (c & t & Hin).
  assert (is_Some (dict_get
    (apply_results (apply_results [] (missing_skills (classify_all O R)) results1)
       (below_level_skills (classify_all O R)) results2) s)) as [d' Hd'].
  { apply dict_get_is_Some.
    rewrite (apply_results_keys current_level), (apply_results_keys (λ _, 0)).
    apply elem_of_app in Hin as [?|?]; [left; right | right]; eauto. }
  destruct (Horigin _ _ Hd') as (c' & t' & Hin').
  pose proof (NoDup_fmap_unique call_skill _ _ _ Hnd Hin Hin' eq_refl) as [= _ _ ->].
  done.
Qed.

(** X14. Against a dictionary [R], one analysis makes as many collaborator
    calls as there are required skills that do not match: the number of
    calls plus the number of matching skills is [len(R)]. *)
Theorem analyze_skill_gap_call_count `{PyStr} `{Gemini} (O R : dict Z) (st : State) :
  dict_wf R →
  ∃ a st' new,
    analyze_skill_gap O R st = (inr a, st') ∧ calls st' = calls st ++ new ∧
    (length new + length (matching_skills (gap_analysis a)))%nat = length R.
Proof.
  intros Hwf.
  destruct (analyze_skill_gap_log O R st)
    as (a & st' & new & Hrun & Hcalls & Hgap & _ & _ & Hskills & _).
  exists a, st', new. split_and!; [done | done |].
  rewrite <- (length_fmap call_skill new), Hskills, Hgap, length_app.
  unfold dict_keys. rewrite !length_fmap.
  destruct (classify_all_in_order O R Hwf) as (-> & -> & ->).
  pose proof (partition_lengths O R). lia.
Qed.


(** X16. A phrase is enough: when a phrase of some tier for an ontology
    skill occurs in the text of the document, the returned map has the
    skill, at a level that is at least the level of that tier. *)
Theorem parse_resume_phrase_level `{PyStr} `{Files} {Meta} (self : Parser Meta)
    (file_path text k : string) (level : Z) :
  extract_text file_path = inr text →
  ontology_key self k → tier_hit level k text →
  ∃ skill_levels v, parse_resume self file_path = inr skill_levels ∧
    dict_get skill_levels k = Some v ∧ level ≤ v ≤ 5.
Proof.
  intros Htext Hkey Hhit.
  exists (skill_levels_of self text (_extract_skills_with_nlp self text)),
         (_estimate_proficiency k text).
  split_and!; [by apply parse_resume_returns | | |].
  - apply skill_levels_of_lookup. split_and!; [done | | done]. left.
    destruct Hhit as (b & a & _ & Hocc).
    eapply occurs_in_trans; [|exact Hocc]. by exists b, a.
  - by apply _estimate_proficiency_at_least.
  - apply _estimate_proficiency_range.
Qed.

(** * Runs

    The code run in the environment of [Demo]: examples, the theorems
    applied to inputs, and the inputs on which a claim fails. *)

Section runs.
Import Demo.

(** C3, on a text: a phrase of tier 3 and a phrase of tier 5 for the same
    skill give 5, and a text with no phrase gives 1. *)
Example estimate_examples :
  _estimate_proficiency "Python"
    "Experience with Python at work; 5+ years of python overall" = 5 ∧
  _estimate_proficiency "SQL" "I like SQL" = 1.
Proof. by vm_compute. Qed.

(** The scenario of the specification: two skills below their level, one
    missing, none matching. *)
Example classification_scenario :
  classify_all [("Python", 3); ("Machine Learning", 2)]
               [("Python", 4); ("Machine Learning", 3); ("Data Analysis", 3)]
  = {| missing_skills := [("Data Analysis", entry 3 0)];
       matching_skills := [];
       below_level_skills := [("Python", entry 4 3); ("Machine Learning", entry 3 2)] |}.
Proof. by vm_compute. Qed.

(** C5 and C6, on a run: the second of three calls fails; the entry of
    its skill stays in [below_level_skills], the skill has no learning
    path, and the log shows the order of the calls. *)
Example analysis_run :
  analyze_skill_gap
    [("Python", 3); ("Machine Learning", 2); ("SQL", 4)]
    [("Python", 4); ("Machine Learning", 3); ("Data Analysis", 3); ("SQL", 2)]
    (start [inr "```json {1} ```"; inl "429 quota exceeded"; inr "{3}"])
  = (inr {| gap_analysis :=
              {| missing_skills := [("Data Analysis", entry 3 0)];
                 matching_skills := [("SQL", entry 2 4)];
                 below_level_skills :=
                   [("Python", entry 4 3); ("Machine Learning", entry 3 2)] |};
            learning_paths := [("Data Analysis", "{1}"); ("Machine Learning", "{3}")] |},
     {| world := [];
        calls := [ LearningPathCall "Data Analysis" 0 3 (Success "{1}");
                   LearningPathCall "Python" 3 4 (Failure "429 quota exceeded");
                   LearningPathCall "Machine Learning" 2 3 (Success "{3}") ] |}).
Proof. by vm_compute. Qed.

(** C6, on the page: with the button of [SQL] pressed, the page makes one
    tips call, for [SQL] at its current level. *)
Example tips_run :
  show_upskilling_paths
    (Some {| gap_analysis :=
               {| missing_skills := [("Data Analysis", entry 3 0)];
                  matching_skills := [("SQL", entry 2 4); ("Python", entry 3 3)];
                  below_level_skills := [] |};
             learning_paths := [("Data Analysis", "{1}")] |})
    (λ key, bool_decide (key = "tips_SQL"))
    (start [inr "{tips}"])
  = (inr tt, {| world := []; calls := [TipsCall "SQL" 4 (Success "{tips}")] |}).
Proof. by vm_compute. Qed.

(** C9, on files: an unknown suffix, an upper-case known suffix, and a
    reader that fails. *)
Example extraction_error_examples :
  parse_resume demo_parser "cv.doc"
  = inl (ExtractionError "cv.doc" "Unsupported file format: .doc") ∧
  parse_resume demo_parser "cv.PDF"
  = inl (ExtractionError "cv.PDF" "No such file or directory") ∧
  parse_resume demo_parser "resume.txt"
  = inr [("Machine Learning", 5); ("Python", 5)].
Proof. by vm_compute. Qed.

(** C10, on a text: the pattern scan proposes [python], the ontology
    spells it [Python]; the lowercase candidate is dropped and the keys of
    the map are those of the ontology scan. *)
Example lowercase_candidates_dropped :
  elements (pattern_scan notes_doc ∅) = ["python"] ∧
  parse_resume demo_parser "notes.TXT" = inr [("SQL", 1); ("Python", 1)].
Proof. by vm_compute. Qed.

Lemma C1_partitions_witness :
  ∃ a st',
    analyze_skill_gap
      [("Python", 3); ("Machine Learning", 2); ("Cooking", 4)]
      [("Python", 4); ("Machine Learning", 2); ("Data Analysis", 3)]
      (start [inr "{}"]) = (inr a, st') ∧
    let g := gap_analysis a in
    keyset (matching_skills g) ## keyset (below_level_skills g) ∧
    keyset (matching_skills g) ## keyset (missing_skills g) ∧
    keyset (below_level_skills g) ## keyset (missing_skills g) ∧
    keyset (matching_skills g) ∪ keyset (below_level_skills g)
      ∪ keyset (missing_skills g)
    = keyset [("Python", 4); ("Machine Learning", 2); ("Data Analysis", 3)] ∧
    ∀ s, s ∈ keyset [("Python", 3); ("Machine Learning", 2); ("Cooking", 4)] →
         s ∉ keyset [("Python", 4); ("Machine Learning", 2); ("Data Analysis", 3)] →
         (s ∉ keyset (matching_skills g)) ∧ (s ∉ keyset (below_level_skills g)) ∧
         (s ∉ keyset (missing_skills g)).
Proof.
  apply C1_partitions.
  apply (bool_decide_unpack _). vm_compute. exact I.
Defined.

Lemma C2_placement_witness :
  ∃ a st',
    analyze_skill_gap
      [("Python", 3); ("Machine Learning", 2)]
      [("Python", 4); ("Machine Learning", 2); ("Data Analysis", 3)]
      (start []) = (inr a, st') ∧
    let g := gap_analysis a in
    ("Python" ∉ dict_keys [("Python", 3); ("Machine Learning", 2)] →
     dict_get (missing_skills g) "Python" = Some (entry 4 0)) ∧
    (∀ level, dict_get [("Python", 3); ("Machine Learning", 2)] "Python" = Some level →
       level >= 4 → dict_get (matching_skills g) "Python" = Some (entry 4 level)) ∧
    (∀ level, dict_get [("Python", 3); ("Machine Learning", 2)] "Python" = Some level →
       level < 4 →
       dict_get (below_level_skills g) "Python" = Some (entry 4 level) ∧
       4 - level > 0 ∧ level > 0).
Proof.
  apply C2_placement.
  - intros s v. simpl. repeat case_decide; intros [= <-]; lia.
  - apply (bool_decide_unpack _). vm_compute. exact I.
  - reflexivity.
Defined.

Lemma C3_highest_tier_witness :
  _estimate_proficiency "Python"
    "Experience with Python at work; 5+ years of python overall" = 5.
Proof.
  destruct (C3_highest_tier "Python"
              "Experience with Python at work; 5+ years of python overall")
    as (_ & _ & Hboth).
  apply Hboth.
  - exists "experience with ", "". split.
    + apply list_elem_of_In. simpl. tauto.
    + by exists "", " at work; 5+ years of python overall".
  - exists "5+ years of ", "". split.
    + apply list_elem_of_In. simpl. tauto.
    + by exists "experience with python at work; ", " overall".
Defined.

Lemma C7_levels_witness :
  Forall (λ item, 1 ≤ item.2 ≤ 5) [("Machine Learning", 5); ("Python", 5)].
Proof.
  destruct (C7_levels demo_parser "resume.txt") as [_ Hmap].
  apply Forall_forall. intros [s v].
  apply (Hmap [("Machine Learning", 5); ("Python", 5)]).
  vm_compute. reflexivity.
Defined.

Lemma C9_extraction_errors_witness :
  ∃ suffix, extract_text "cv.doc" = inl (UnsupportedFormat suffix).
Proof.
  destruct (C9_extraction_errors demo_parser "cv.doc") as [[_ Hunsupported] _].
  apply Hunsupported. simpl. rewrite !not_elem_of_cons.
  split_and!; [done | done | done | apply not_elem_of_nil].
Defined.

Lemma C4_controlled_vocabulary_witness :
  ∃ skill_levels,
    parse_resume demo_parser "notes.TXT" = inr skill_levels ∧
    (∀ k, k ∈ dict_keys skill_levels →
       k ∈ _extract_skills_with_nlp demo_parser "experience python and sql" ∧
       ∃ key, ontology_key demo_parser key ∧ lower k = lower key) ∧
    (∀ c, c ∈ _extract_skills_with_nlp demo_parser "experience python and sql" →
       (∀ key, ontology_key demo_parser key → lower c ≠ lower key) →
       c ∉ dict_keys skill_levels).
Proof.
  apply C4_controlled_vocabulary.
  vm_compute. reflexivity.
Defined.

Lemma C6_call_order_witness :
  ∃ a st' new,
    analyze_skill_gap observed required
      (start [inr "{1}"; inl "429 quota exceeded"; inr "{3}"]) = (inr a, st') ∧
    calls st' = calls (start [inr "{1}"; inl "429 quota exceeded"; inr "{3}"]) ++ new ∧
    let g := gap_analysis a in
    missing_skills g = omap (missing_item observed) required ∧
    matching_skills g = omap (matching_item observed) required ∧
    below_level_skills g = omap (below_item observed) required ∧
    learning_path_requests new
    = ((λ '(s, e), (s, 0, required_level e)) <$> missing_skills g)
      ++ ((λ '(s, e), (s, current_level e, required_level e)) <$> below_level_skills g) ∧
    tips_requests new = [] ∧
    (∀ s, s ∈ keyset (missing_skills g) ∪ keyset (below_level_skills g) →
          call_count s new = 1%nat) ∧
    (∀ s, s ∈ keyset (matching_skills g) → call_count s new = 0%nat) ∧
    (∀ button st0, ∃ r st1 tips,
       show_upskilling_paths (Some a) button st0 = (r, st1) ∧
       calls st1 = calls st0 ++ tips ∧
       learning_path_requests tips = [] ∧
       ∀ s current, (s, current) ∈ tips_requests tips →
         button ("tips_" +:+ s) = true ∧
         ∃ e, (s, e) ∈ matching_skills g ∧ current_level e = current).
Proof.
  apply C6_call_order.
  apply (bool_decide_unpack _). vm_compute. exact I.
Defined.

Lemma C8_empty_text_witness :
  _extract_skills_with_nlp demo_parser "" = [] ∧
  parse_resume demo_parser "empty.txt" = inr [].
Proof.
  apply C8_empty_text.
  - reflexivity.
  - intros [|c k]; [reflexivity | discriminate].
  - reflexivity.
  - intros Hk%skill_found_spec. vm_compute in Hk. discriminate.
  - reflexivity.
Defined.

Lemma C10_exact_keys_witness :
  ∃ skill_levels,
    parse_resume demo_parser "notes.TXT" = inr skill_levels ∧
    (∀ k, k ∈ dict_keys skill_levels ↔
          k ∈ _extract_skills_with_nlp demo_parser "experience python and sql" ∧
          ontology_key demo_parser k) ∧
    (∀ c, c ∈ pattern_scan (nlp demo_parser (lower "experience python and sql")) ∅ →
          lower c = c → c ∈ dict_keys skill_levels →
          ∃ key, ontology_key demo_parser key ∧ key = c ∧ lower key = key) ∧
    ((∀ k1 k2, ontology_key demo_parser k1 → ontology_key demo_parser k2 →
               lower k1 = lower k2 → k1 = k2) →
     ∀ k1 k2, k1 ∈ dict_keys skill_levels → k2 ∈ dict_keys skill_levels →
              lower k1 = lower k2 → k1 = k2).
Proof.
  apply C10_exact_keys.
  vm_compute. reflexivity.
Defined.

(** The message of a failed call is not kept: two runs whose calls fail
    with different errors return the same analysis, so nothing read off
    the analysis gives back the error. *)
Example failure_message_not_kept :
  ¬ ∃ recorded : Analysis → string → option string,
      ∀ script a st' s current target error,
        analyze_skill_gap [] [("Data Analysis", 3)] (start script) = (inr a, st') →
        LearningPathCall s current target (Failure error) ∈ calls st' →
        recorded a s = Some error.
Proof.
  intros [recorded Hrec].
  pose proof (Hrec [inr "<html>"] _ _ "Data Analysis" 0 3 "Expecting value" eq_refl) as H1.
  pose proof (Hrec [inl "429 quota exceeded"] _ _ "Data Analysis" 0 3
                "429 quota exceeded" eq_refl) as H2.
  simpl in H1, H2.
  rewrite H1 in H2 by left. specialize (H2 ltac:(left)). discriminate.
Qed.

(** C5, on a run: the failures that the returned analysis shows. *)
Example failed_skills_run :
  failed_skills
    {| gap_analysis := classify_all observed required;
       learning_paths := [("Data Analysis", "{1}"); ("Machine Learning", "{3}")] |}
  = ["Python"].
Proof. by vm_compute. Qed.

(** C6 and X15, on the page, with answers decoded to Python values: a
    stored learning path that is a number cannot be displayed, and the
    page raises before any call; a tips reply that is a number cannot be
    displayed, and the page raises after the first call, the second
    pressed button getting none. *)
Example page_raises :
  @show_upskilling_paths ascii_str typed typed_values
    (Some (@Build_Analysis typed
             {| missing_skills := [("Data Analysis", entry 3 0)];
                matching_skills := [("SQL", entry 2 4)];
                below_level_skills := [] |}
             [("Data Analysis", PyNumber "42")]))
    (λ _, true)
    (@Build_State typed [inr "{}"] [])
  = (inl (LibraryError "object has no attribute 'get'"),
     @Build_State typed [inr "{}"] []) ∧
  @show_upskilling_paths ascii_str typed typed_values
    (Some (@Build_Analysis typed
             {| missing_skills := [("Data Analysis", entry 3 0)];
                matching_skills := [("SQL", entry 2 4); ("Python", entry 3 3)];
                below_level_skills := [] |}
             [("Data Analysis", PyDict [])]))
    (λ _, true)
    (@Build_State typed [inr "42"; inr "{}"] [])
  = (inl (LibraryError "argument is not iterable"),
     @Build_State typed [inr "{}"]
       [@TipsCall typed "SQL" 4 (Success (PyNumber "42"))]).
Proof. by vm_compute. Qed.

(** C8, as stated, fails on an ontology that has the empty string among
    its skill names: the empty text contains the empty name, and the
    parser returns a map with one entry. *)
Lemma C8_counterexample :
  extract_text "empty.txt" = inr "" ∧
  parse_resume odd_parser "empty.txt" = inr [("", 1)] ∧
  parse_resume odd_parser "empty.txt" ≠ inr [].
Proof. split_and!; [by vm_compute | by vm_compute | by vm_compute]. Qed.

Lemma parse_resume_lookup_witness :
  ∃ skill_levels, parse_resume demo_parser "notes.TXT" = inr skill_levels ∧
    dict_wf skill_levels ∧
    ∀ k v, dict_get skill_levels k = Some v ↔
      ontology_key demo_parser k ∧
      (occurs_in (lower k) (lower "experience python and sql") ∨
       pattern_candidate (nlp demo_parser (lower "experience python and sql")) k) ∧
      v = _estimate_proficiency k "experience python and sql".
Proof.
  apply parse_resume_lookup. vm_compute. reflexivity.
Defined.

Lemma parse_resume_name_inside_name_witness :
  ∃ skill_levels,
    parse_resume (H0 := more_files) overlap_parser "dba.txt" = inr skill_levels ∧
    dict_get skill_levels "SQL"
    = Some (_estimate_proficiency "SQL" "Expert in MySQL administration").
Proof.
  apply (parse_resume_name_inside_name (H0 := more_files) overlap_parser
           "dba.txt" "Expert in MySQL administration" "SQL" "MySQL").
  - vm_compute. reflexivity.
  - apply skill_found_spec. vm_compute. reflexivity.
  - by exists "my", "".
  - by exists "expert in ", " administration".
Defined.

Lemma parse_resume_pattern_scan_redundant_witness :
  ∃ skill_levels, parse_resume demo_parser "notes.TXT" = inr skill_levels ∧
    ∀ k, dict_get skill_levels k
         = dict_get (skill_levels_of demo_parser "experience python and sql"
                       (elements (ontology_scan demo_parser
                                    "experience python and sql" ∅))) k.
Proof.
  apply parse_resume_pattern_scan_redundant.
  - vm_compute. reflexivity.
  - intros token Hin.
    replace (nlp demo_parser (lower "experience python and sql")) with notes_doc in Hin
      by (vm_compute; reflexivity).
    unfold notes_doc in Hin.
    repeat (apply elem_of_cons in Hin as [->|Hin]).
    + split; [by exists "", " python and sql" | reflexivity].
    + split; [by exists "experience ", " and sql" | reflexivity].
    + split; [by exists "experience python ", " sql" | reflexivity].
    + split; [by exists "experience python and ", "" | reflexivity].
    + by apply elem_of_nil in Hin.
Defined.

(** X4, on machines: with the model missing and the download failing no
    parser is built; with the model installed and no ontology file the
    parser is built and finds nothing. *)
Example parser_construction :
  __init__ (Meta := unit) spacy_offline None
  = inl (LibraryError "Command returned non-zero exit status 1") ∧
  __init__ (Meta := unit) spacy_installed None
  = inr {| nlp := demo_nlp; skill_ontology := [("skills", [])] |}.
Proof. by vm_compute. Qed.

Lemma parse_resume_without_ontology_witness :
  ∃ self : Parser unit, __init__ spacy_downloaded None = inr self ∧
                        nlp self = demo_nlp ∧
                        parse_resume self "resume.txt" = inr [].
Proof.
  apply (parse_resume_without_ontology spacy_downloaded demo_nlp None
           "resume.txt" resume_text).
  - right. by eexists.
  - by left.
  - vm_compute. reflexivity.
Defined.

Lemma _estimate_proficiency_monotone_witness :
  _estimate_proficiency "Python" "expert in python"
  ≤ _estimate_proficiency "Python" "I am an Expert in Python.".
Proof.
  apply _estimate_proficiency_monotone. by exists "i am an ", ".".
Defined.

Lemma _estimate_proficiency_prefix_expert_witness :
  _estimate_proficiency "Java" "Expert in JavaScript and CSS" = 5.
Proof.
  apply (_estimate_proficiency_prefix_expert "Java" "JavaScript" "script").
  - reflexivity.
  - vm_compute. reflexivity.
Defined.

Lemma parse_resume_pdf_pages_witness :
  extract_text (H0 := more_files) "cv.pdf" = inr (pdf_text ["Expert in"; "Python"]) ∧
  parse_resume (H0 := more_files) demo_parser "scan.pdf"
  = inl (ExtractionError "scan.pdf" "cannot decode page").
Proof.
  split.
  - destruct (parse_resume_pdf_pages (H0 := more_files) demo_parser "cv.pdf")
      as [Hgood _]; [reflexivity|].
    apply Hgood. reflexivity.
  - destruct (parse_resume_pdf_pages (H0 := more_files) demo_parser "scan.pdf")
      as [_ Hbad]; [reflexivity|].
    apply (Hbad ["Python"] "cannot decode page" [inr "SQL"]). reflexivity.
Defined.

Lemma analyze_skill_gap_in_order_witness :
  ∃ a st', analyze_skill_gap observed required (start []) = (inr a, st') ∧
    missing_skills (gap_analysis a) = omap (missing_item observed) required ∧
    matching_skills (gap_analysis a) = omap (matching_item observed) required ∧
    below_level_skills (gap_analysis a) = omap (below_item observed) required.
Proof.
  apply analyze_skill_gap_in_order.
  apply (bool_decide_unpack _). vm_compute. exact I.
Defined.

Lemma display_analysis_results_metrics_witness :
  ∃ a st', analyze_skill_gap observed required (start []) = (inr a, st') ∧
    let page := display_analysis_results a in
    (skills_matched page).2 = length required ∧
    (skills_below_level page).2 = length required ∧
    (skills_missing page).2 = length required ∧
    (skills_matched page).1 = length (matching_skills (gap_analysis a)) ∧
    (skills_below_level page).1 = length (below_level_skills (gap_analysis a)) ∧
    (skills_missing page).1 = length (missing_skills (gap_analysis a)) ∧
    ((skills_matched page).1 + (skills_below_level page).1
     + (skills_missing page).1)%nat = length required.
Proof.
  apply display_analysis_results_metrics.
  apply (bool_decide_unpack _). vm_compute. exact I.
Defined.

Lemma analyze_skill_gap_monotone_witness :
  ∃ a st1 a' st1',
    analyze_skill_gap observed required (start []) = (inr a, st1) ∧
    analyze_skill_gap trained required (start [inr "{1}"]) = (inr a', st1') ∧
    keyset (matching_skills (gap_analysis a))
      ⊆ keyset (matching_skills (gap_analysis a')) ∧
    keyset (missing_skills (gap_analysis a'))
      ⊆ keyset (missing_skills (gap_analysis a)).
Proof.
  apply analyze_skill_gap_monotone.
  - apply (bool_decide_unpack _). vm_compute. exact I.
  - intros s level. unfold observed, trained. simpl.
    repeat case_decide; intros [= <-]; eexists; (split; [reflexivity | lia]).
Defined.

Lemma analyze_skill_gap_all_matched_witness :
  ∃ a, analyze_skill_gap trained [("Python", 4); ("SQL", 2)] (start [inr "{1}"])
       = (inr a, start [inr "{1}"]) ∧
    missing_skills (gap_analysis a) = [] ∧
    below_level_skills (gap_analysis a) = [] ∧
    learning_paths a = [] ∧
    ∀ button st0, show_upskilling_paths (Some a) button st0 = (inr tt, st0).
Proof.
  apply analyze_skill_gap_all_matched.
  intros s r Hin.
  repeat (apply elem_of_cons in Hin as [[= -> ->]|Hin]);
    [by exists 4 | by exists 5 | by apply elem_of_nil in Hin].
Defined.

Lemma analyze_skill_gap_call_count_witness :
  ∃ a st' new,
    analyze_skill_gap observed required (start []) = (inr a, st') ∧
    calls st' = calls (start []) ++ new ∧
    (length new + length (matching_skills (gap_analysis a)))%nat = length required.
Proof.
  apply analyze_skill_gap_call_count.
  apply (bool_decide_unpack _). vm_compute. exact I.
Defined.

(** On a page: the metrics of the analysis of [observed] against
    [required], and the table of the skills to improve. *)
Example analysis_page :
  let page := display_analysis_results
                {| gap_analysis := classify_all observed required;
                   learning_paths := [] |} in
  skills_matched page = (1, 4)%nat ∧ skills_below_level page = (2, 4)%nat ∧
  skills_missing page = (1, 4)%nat ∧
  tab_needs_improvement page
  = Some [ {| Skill := "Python"; Your_Level := 3; Required_Level := 4; Gap := 1 |};
           {| Skill := "Machine Learning"; Your_Level := 2; Required_Level := 3;
              Gap := 1 |} ].
Proof. by vm_compute. Qed.

Lemma parse_resume_phrase_level_witness :
  ∃ skill_levels v, parse_resume demo_parser "resume.txt" = inr skill_levels ∧
    dict_get skill_levels "Python" = Some v ∧ 5 ≤ v ≤ 5.
Proof.
  apply (parse_resume_phrase_level demo_parser "resume.txt" resume_text "Python" 5).
  - vm_compute. reflexivity.
  - apply skill_found_spec. vm_compute. reflexivity.
  - exists "senior ", "". split.
    + apply list_elem_of_In. simpl. tauto.
    + by exists "", " engineer with advanced machine learning skills".
Defined.

End runs.
